(** * golang-best-practices-check: the pre-commit hook of [main.go]

    A shallow embedding of [main.go].  Go strings are byte sequences and are
    modelled by [string] (a list of 8-bit [ascii]); the operating system, the
    network and the order of the visible effects are modelled by a trace of
    events and a [World] that answers file reads and HTTP requests.  The
    functions of Go's standard library that [main.go] calls
    ([strings.HasSuffix], [utf8.RuneCountInString], [fmt.Sprintf],
    [json.Marshal], [json.Unmarshal]) are modelled after the library's
    documented behaviour, under the library's names. *)

From Stdlib Require Import String Ascii List ZArith NArith Bool Arith Lia.
From Stdlib Require Import DecimalString.
Import ListNotations.
Local Open Scope string_scope.
Set Warnings "-abstract-large-number".

(** ** Bytes and strings *)

Definition code (c : ascii) : N := N_of_ascii c.

Definition dq : ascii := "034".   (* the double quote *)
Definition nl : ascii := "010".   (* \n *)
Definition tab : ascii := "009".  (* \t *)
Definition cr : ascii := "013".   (* \r *)
Definition bs : ascii := "008".   (* \b *)
Definition ff : ascii := "012".   (* \f *)
Definition bsl : ascii := "092".  (* the backslash *)

Definition str (c : ascii) : string := String c "".

Notation "a == b" := (Ascii.eqb a b) (at level 70, no associativity).

(** [s[n:]] and [s[:n]] for [n <= len(s)]. *)
Fixpoint drop (n : nat) (s : string) : string :=
  match n, s with
  | S n', String _ r => drop n' r
  | _, _ => s
  end.

Fixpoint take (n : nat) (s : string) : string :=
  match n, s with
  | S n', String c r => String c (take n' r)
  | _, _ => ""
  end.

(** [strings.HasSuffix]:
    [len(s) >= len(suffix) && s[len(s)-len(suffix):] == suffix]. *)
Definition strings_HasSuffix (s suffix : string) : bool :=
  (String.length suffix <=? String.length s)%nat
  && String.eqb (drop (String.length s - String.length suffix) s) suffix.

(** [fmt.Sprintf("%d", n)]. *)
Definition fmt_d (n : Z) : string := NilZero.string_of_int (Z.to_int n).

(** ** unicode/utf8 *)

Definition in_range (lo hi : N) (c : ascii) : bool :=
  ((lo <=? code c) && (code c <=? hi))%N.

(** Continuation bytes, [locb..hicb]. *)
Definition is_cont (c : ascii) : bool := in_range 0x80 0xBF c.

(** The tables [first] and [acceptRanges] of unicode/utf8 for a leading byte
    of a multi-byte encoding: the length of the encoding and the range the
    second byte must lie in.  [None] is the table's [xx] (and the ASCII
    bytes, which the callers test for first). *)
Definition first (c : ascii) : option (nat * (N * N)) :=
  let n := code c in
  (if n <? 0xC2 then None
   else if n <=? 0xDF then Some (2%nat, (0x80, 0xBF))
   else if n =? 0xE0 then Some (3%nat, (0xA0, 0xBF))
   else if n =? 0xED then Some (3%nat, (0x80, 0x9F))
   else if n <=? 0xEF then Some (3%nat, (0x80, 0xBF))
   else if n =? 0xF0 then Some (4%nat, (0x90, 0xBF))
   else if n <=? 0xF3 then Some (4%nat, (0x80, 0xBF))
   else if n =? 0xF4 then Some (4%nat, (0x80, 0x8F))
   else None)%N.

(** [utf8.DecodeRuneInString], as far as its callers here use it: whether
    the string starts with a well-formed encoding, and the width consumed
    (1 for [RuneError] on a malformed or truncated encoding, 0 on the empty
    string). *)
Definition DecodeRuneInString (s : string) : bool * nat :=
  match s with
  | "" => (false, 0)
  | String c0 r0 =>
    if (code c0 <? 0x80)%N then (true, 1)
    else
      match first c0 with
      | None => (false, 1)
      | Some (sz, (lo, hi)) =>
        match r0 with
        | String c1 r1 =>
          if negb (in_range lo hi c1) then (false, 1)
          else if (sz <=? 2)%nat then (true, 2)
          else
            match r1 with
            | String c2 r2 =>
              if negb (is_cont c2) then (false, 1)
              else if (sz <=? 3)%nat then (true, 3)
              else
                match r2 with
                | String c3 _ => if is_cont c3 then (true, 4) else (false, 1)
                | "" => (false, 1)
                end
            | "" => (false, 1)
            end
        | "" => (false, 1)
        end
      end
  end.

(** The string cut into the pieces the decoding loops of unicode/utf8 and
    encoding/json step over ([for i < len(s) { _, size := decode(s[i:]);
    i += size }]): each piece is one well-formed encoding or one malformed
    byte.  The loop runs at most [len(s)] times, which is the fuel. *)
Fixpoint runes_loop (fuel : nat) (s : string) : list (bool * string) :=
  match fuel with
  | O => []
  | S fuel' =>
    match s with
    | "" => []
    | _ =>
      let '(ok, size) := DecodeRuneInString s in
      (ok, take size s) :: runes_loop fuel' (drop size s)
    end
  end.

Definition runes (s : string) : list (bool * string) :=
  runes_loop (String.length s) s.

(** [utf8.RuneCountInString]: malformed bytes count as one rune each. *)
Definition utf8_RuneCountInString (s : string) : nat := List.length (runes s).

(** U+FFFD, [utf8.RuneError], encoded. *)
Definition replacement : string :=
  String "239" (String "191" (String "189" "")).

(** [utf8.EncodeRune]. *)
Definition utf8_EncodeRune (r : N) : string :=
  let b (n : N) := ascii_of_N n in
  (if r <=? 0x7F then str (b r)
   else if r <=? 0x7FF then
     String (b (0xC0 + r / 64)) (str (b (0x80 + r mod 64)))
   else if (0xD800 <=? r) && (r <=? 0xDFFF) then replacement
   else if r <=? 0xFFFF then
     String (b (0xE0 + r / 4096))
       (String (b (0x80 + (r / 64) mod 64)) (str (b (0x80 + r mod 64))))
   else if r <=? 0x10FFFF then
     String (b (0xF0 + r / 262144))
       (String (b (0x80 + (r / 4096) mod 64))
          (String (b (0x80 + (r / 64) mod 64)) (str (b (0x80 + r mod 64)))))
   else replacement)%N.

(** The string with every malformed byte replaced by U+FFFD
    ([strings.ToValidUTF8] with U+FFFD, without the merging of runs). *)
Definition coerce_utf8 (s : string) : string :=
  String.concat ""
    (map (fun r : bool * string => if fst r then snd r else replacement)
       (runes s)).

(** ** encoding/json: values and string literals *)

#[warnings="-register-all"]
Inductive json : Type :=
| JNull
| JBool (b : bool)
| JNumber (literal : string)
| JString (s : string)
| JArray (elems : list json)
| JObject (members : list (string * json)).

Definition hexval (c : ascii) : option N :=
  let n := code c in
  (if (48 <=? n) && (n <=? 57) then Some (n - 48)
   else if (97 <=? n) && (n <=? 102) then Some (n - 87)
   else if (65 <=? n) && (n <=? 70) then Some (n - 55)
   else None)%N.

Definition is_hex (c : ascii) : bool :=
  match hexval c with Some _ => true | None => false end.

(** [getu4] on the four characters after a backslash and a [u]. *)
Definition getu4 (h1 h2 h3 h4 : ascii) : option N :=
  match hexval h1, hexval h2, hexval h3, hexval h4 with
  | Some a, Some b, Some c, Some d => Some (((a * 16 + b) * 16 + c) * 16 + d)%N
  | _, _, _, _ => None
  end.

Definition utf16_IsSurrogate (r : N) : bool := ((0xD800 <=? r) && (r <? 0xE000))%N.

(** [utf16.DecodeRune]; [None] stands for the replacement character it
    returns on anything but a high surrogate followed by a low one. *)
Definition utf16_DecodeRune (r1 r2 : N) : option N :=
  (if (0xD800 <=? r1) && (r1 <? 0xDC00) && (0xDC00 <=? r2) && (r2 <? 0xE000)
   then Some ((r1 - 0xD800) * 1024 + (r2 - 0xDC00) + 0x10000)
   else None)%N.

(** The character a one-letter escape stands for. *)
Definition escape_char (e : ascii) : option ascii :=
  if (e == dq) || (e == bsl) || (e == "/") then Some e
  else if e == "b" then Some bs
  else if e == "f" then Some ff
  else if e == "n" then Some nl
  else if e == "r" then Some cr
  else if e == "t" then Some tab
  else None.

(** The escape-processing half of [unquoteBytes]: every other byte is
    copied.  A lone or mismatched surrogate escape becomes U+FFFD and only
    that escape is consumed.  Escapes the scanner would have refused end the
    result (in Go the caller never passes them). *)
Fixpoint unescape (s : string) : string :=
  match s with
  | "" => ""
  | String c r =>
    if c == bsl then
      match r with
      | "" => ""
      | String e r1 =>
        if e == "u" then
          match r1 with
          | String h1 (String h2 (String h3 (String h4 r2))) =>
            match getu4 h1 h2 h3 h4 with
            | None => ""
            | Some rr =>
              if utf16_IsSurrogate rr then
                match r2 with
                | String b (String u (String k1 (String k2 (String k3 (String k4 r3))))) =>
                  match (if (b == bsl) && (u == "u") then getu4 k1 k2 k3 k4 else None) with
                  | Some rr1 =>
                    match utf16_DecodeRune rr rr1 with
                    | Some dec => utf8_EncodeRune dec ++ unescape r3
                    | None => replacement ++ unescape r2
                    end
                  | None => replacement ++ unescape r2
                  end
                | _ => replacement ++ unescape r2
                end
              else utf8_EncodeRune rr ++ unescape r2
            end
          | _ => ""
          end
        else
          match escape_char e with
          | Some x => String x (unescape r1)
          | None => ""
          end
      end
    else String c (unescape r)
  end.

(** [unquoteBytes] on the text between the quotes of a string literal the
    scanner has accepted.  Go does both jobs in one loop; the escapes are
    ASCII, so cutting the literal into runes first and processing the
    escapes afterwards visits the same pieces. *)
Definition unquote (raw : string) : string := unescape (coerce_utf8 raw).

(** ** encoding/json: the scanner

    [scanner.go] is a state machine fed one byte at a time: a step function
    and a stack [parseState] of the containers that are open.  The model
    keeps both, and lets the machine carry what the decoder builds in its
    second pass over the same bytes: a frame of the stack holds the members
    read so far (last one first), a literal state holds the text read so
    far. *)

Inductive frame : Type :=
| InArray (done : list json)                              (* parseArrayValue *)
| InObjectKey (done : list (string * json))               (* parseObjectKey, before the key *)
| InObjectColon (done : list (string * json)) (key : string)   (* parseObjectKey, after the key *)
| InObjectValue (done : list (string * json)) (key : string)   (* parseObjectValue, before the value *)
| InObjectNext (done : list (string * json)).             (* parseObjectValue, after the value *)

Inductive step : Type :=
| stateBeginValueOrEmpty
| stateBeginValue
| stateBeginStringOrEmpty
| stateBeginString
| stateEndValue
| stateEndTop (v : json)
| stateInString (raw : string)
| stateInStringEsc (raw : string)
| stateInStringEscU (raw : string) (seen : nat)   (* stateInStringEscU, U1, U12, U123 *)
| stateNeg (lit : string)
| state1 (lit : string)
| state0 (lit : string)
| stateDot (lit : string)
| stateDot0 (lit : string)
| stateE (lit : string)
| stateESign (lit : string)
| stateE0 (lit : string)
| stateLiteral (expect : string) (v : json)   (* stateT, stateTr, ..., stateNul *)
| stateError.

Definition scanner : Type := step * list frame.

Definition maxNestingDepth : nat := 10000.

Definition isSpace (c : ascii) : bool :=
  (c == " ") || (c == tab) || (c == cr) || (c == nl).

Definition is_digit (c : ascii) : bool := in_range 48 57 c.
Definition is_digit19 (c : ascii) : bool := in_range 49 57 c.

Definition snoc (s : string) (c : ascii) : string := s ++ str c.

Definition scan_error : scanner := (stateError, []).

(** [pushParseState]. *)
Definition pushParseState (f : frame) (success : step) (stack : list frame) : scanner :=
  if (List.length stack <? maxNestingDepth)%nat then (success, f :: stack)
  else scan_error.

(** A value is complete: it is the top-level value, or it goes into the
    container on top of the stack. *)
Definition endValue (v : json) (stack : list frame) : scanner :=
  match stack with
  | [] => (stateEndTop v, [])
  | InArray done :: st => (stateEndValue, InArray (v :: done) :: st)
  | InObjectValue done k :: st => (stateEndValue, InObjectNext ((k, v) :: done) :: st)
  | _ => scan_error
  end.

(** The closing quote of a string literal: an object key or a value. *)
Definition endString (raw : string) (stack : list frame) : scanner :=
  match stack with
  | InObjectKey done :: st => (stateEndValue, InObjectColon done (unquote raw) :: st)
  | _ => endValue (JString (unquote raw)) stack
  end.

Definition do_stateEndValue (c : ascii) (stack : list frame) : scanner :=
  if isSpace c then (stateEndValue, stack)
  else
    match stack with
    | InObjectColon done k :: st =>
      if c == ":" then (stateBeginValue, InObjectValue done k :: st) else scan_error
    | InObjectNext done :: st =>
      if c == "," then (stateBeginString, InObjectKey done :: st)
      else if c == "}" then endValue (JObject (rev done)) st
      else scan_error
    | InArray done :: st =>
      if c == "," then (stateBeginValue, stack)
      else if c == "]" then endValue (JArray (rev done)) st
      else scan_error
    | _ => scan_error
    end.

Definition do_stateEndTop (v : json) (c : ascii) : scanner :=
  if isSpace c then (stateEndTop v, []) else scan_error.

(** A number literal ended just before [c]: [stateEndValue(s, c)]. *)
Definition endNumber (lit : string) (c : ascii) (stack : list frame) : scanner :=
  match endValue (JNumber lit) stack with
  | (stateEndTop v, _) => do_stateEndTop v c
  | (stateEndValue, stack') => do_stateEndValue c stack'
  | _ => scan_error
  end.

Definition do_stateBeginValue (c : ascii) (stack : list frame) : scanner :=
  if isSpace c then (stateBeginValue, stack)
  else if c == "{" then pushParseState (InObjectKey []) stateBeginStringOrEmpty stack
  else if c == "[" then pushParseState (InArray []) stateBeginValueOrEmpty stack
  else if c == dq then (stateInString "", stack)
  else if c == "-" then (stateNeg (str c), stack)
  else if c == "0" then (state0 (str c), stack)
  else if c == "t" then (stateLiteral "rue" (JBool true), stack)
  else if c == "f" then (stateLiteral "alse" (JBool false), stack)
  else if c == "n" then (stateLiteral "ull" JNull, stack)
  else if is_digit19 c then (state1 (str c), stack)
  else scan_error.

Definition do_stateBeginString (c : ascii) (stack : list frame) : scanner :=
  if isSpace c then (stateBeginString, stack)
  else if c == dq then (stateInString "", stack)
  else scan_error.

Definition do_state0 (lit : string) (c : ascii) (stack : list frame) : scanner :=
  if c == "." then (stateDot (snoc lit c), stack)
  else if (c == "e") || (c == "E") then (stateE (snoc lit c), stack)
  else endNumber lit c stack.

Definition do_stateESign (lit : string) (c : ascii) (stack : list frame) : scanner :=
  if is_digit c then (stateE0 (snoc lit c), stack) else scan_error.

(** One byte through the machine: [s.step(s, c)]. *)
Definition scan_step (s : scanner) (c : ascii) : scanner :=
  let '(st, stack) := s in
  match st with
  | stateBeginValueOrEmpty =>
    if isSpace c then (stateBeginValueOrEmpty, stack)
    else if c == "]" then
      match stack with
      | InArray done :: st' => endValue (JArray (rev done)) st'
      | _ => scan_error
      end
    else do_stateBeginValue c stack
  | stateBeginValue => do_stateBeginValue c stack
  | stateBeginStringOrEmpty =>
    if isSpace c then (stateBeginStringOrEmpty, stack)
    else if c == "}" then
      match stack with
      | InObjectKey done :: st' => endValue (JObject (rev done)) st'
      | _ => scan_error
      end
    else do_stateBeginString c stack
  | stateBeginString => do_stateBeginString c stack
  | stateEndValue => do_stateEndValue c stack
  | stateEndTop v => do_stateEndTop v c
  | stateInString raw =>
    if c == dq then endString raw stack
    else if c == bsl then (stateInStringEsc (snoc raw c), stack)
    else if (code c <? 32)%N then scan_error
    else (stateInString (snoc raw c), stack)
  | stateInStringEsc raw =>
    if c == "u" then (stateInStringEscU (snoc raw c) 0, stack)
    else
      match escape_char c with
      | Some _ => (stateInString (snoc raw c), stack)
      | None => scan_error
      end
  | stateInStringEscU raw seen =>
    if is_hex c then
      if (seen <? 3)%nat then (stateInStringEscU (snoc raw c) (S seen), stack)
      else (stateInString (snoc raw c), stack)
    else scan_error
  | stateNeg lit =>
    if c == "0" then (state0 (snoc lit c), stack)
    else if is_digit19 c then (state1 (snoc lit c), stack)
    else scan_error
  | state1 lit =>
    if is_digit c then (state1 (snoc lit c), stack) else do_state0 lit c stack
  | state0 lit => do_state0 lit c stack
  | stateDot lit =>
    if is_digit c then (stateDot0 (snoc lit c), stack) else scan_error
  | stateDot0 lit =>
    if is_digit c then (stateDot0 (snoc lit c), stack)
    else if (c == "e") || (c == "E") then (stateE (snoc lit c), stack)
    else endNumber lit c stack
  | stateE lit =>
    if (c == "+") || (c == "-") then (stateESign (snoc lit c), stack)
    else do_stateESign lit c stack
  | stateESign lit => do_stateESign lit c stack
  | stateE0 lit =>
    if is_digit c then (stateE0 (snoc lit c), stack) else endNumber lit c stack
  | stateLiteral expect v =>
    match expect with
    | String x "" => if c == x then endValue v stack else scan_error
    | String x more => if c == x then (stateLiteral more v, stack) else scan_error
    | "" => scan_error
    end
  | stateError => scan_error
  end.

Fixpoint scan (s : scanner) (data : string) : scanner :=
  match data with
  | "" => s
  | String c rest => scan (scan_step s c) rest
  end.

(** [checkValid] and the decoder's walk in one: the value [data] denotes, or
    [None] where [checkValid] reports a [*SyntaxError].  At the end of the
    input the scanner is fed a space ([scanner.eof]), which ends a top-level
    number. *)
Definition json_parse (data : string) : option json :=
  match scan_step (scan (stateBeginValue, []) data) " " with
  | (stateEndTop v, _) => Some v
  | _ => None
  end.

(** ** encoding/json: decoding into the structs of [main.go] *)

(** [type LLMResponse struct] *)
Record LLMResponse : Type := {
  FollowsBestPractices : bool;   (* `json:"follows_best_practices"` *)
  Suggestions : string           (* `json:"suggestions"` *)
}.

(** [type ollamaRequest struct] *)
Record ollamaRequest : Type := {
  Model : string;    (* `json:"model"` *)
  Prompt : string;   (* `json:"prompt"` *)
  Format : string;   (* `json:"format"` *)
  System : string;   (* `json:"system"` *)
  Stream : bool      (* `json:"stream"` *)
}.

(** [type ollamaResponse struct] *)
Record ollamaResponse : Type := {
  Response : string  (* `json:"response"` *)
}.

(** The errors of [json.Unmarshal]. *)
Inductive JsonError : Type :=
| SyntaxError (data : string)
| UnmarshalTypeError (Value : string) (Field : string).

(** [foldName]: the key of a JSON member is matched against the field
    names without regard to case, under Unicode's simple folding.  Besides
    the ASCII letters, two runes fold to an ASCII letter: U+017F (long s) to
    S and U+212A (Kelvin sign) to K.  The other runes fold among the
    non-ASCII ones and are left alone here, which matches the same keys
    against the ASCII field names of this program. *)
Fixpoint foldName (s : string) : string :=
  match s with
  | "" => ""
  | String c r =>
    if in_range 97 122 c then String (ascii_of_N (code c - 32)) (foldName r)
    else
      match r with
      | String c1 r1 =>
        if (c == "197") && (c1 == "191") then String "S" (foldName r1)
        else
          match r1 with
          | String c2 r2 =>
            if (c == "226") && (c1 == "132") && (c2 == "170")
            then String "K" (foldName r2)
            else String c (foldName r)
          | "" => String c (foldName r)
          end
      | "" => String c (foldName r)
      end
  end.

(** The field the decoder picks for a key: an exact match, else a folded
    one.  An exact match is a folded one too, and the folded names of the
    fields of one struct differ here. *)
Definition field_is (name key : string) : bool :=
  String.eqb (foldName key) (foldName name).

(** The [Value] an [*UnmarshalTypeError] names. *)
Definition kind_name (v : json) : string :=
  match v with
  | JNull => "null"
  | JBool _ => "bool"
  | JNumber _ => "number"
  | JString _ => "string"
  | JArray _ => "array"
  | JObject _ => "object"
  end.

(** [d.saveError]: the first error is kept, decoding goes on. *)
Definition saveError (saved : option JsonError) (e : JsonError) : option JsonError :=
  match saved with
  | Some _ => saved
  | None => Some e
  end.

(** One member of an object decoded into an [LLMResponse]: a [bool] field
    takes [true] or [false], a [string] field takes a string, [null] leaves
    either as it is, anything else is a type error; a key that names no
    field is skipped. *)
Definition member_LLMResponse (st : LLMResponse * option JsonError)
    (m : string * json) : LLMResponse * option JsonError :=
  let '(r, saved) := st in
  let '(key, v) := m in
  if field_is "follows_best_practices" key then
    match v with
    | JBool b => ({| FollowsBestPractices := b; Suggestions := Suggestions r |}, saved)
    | JNull => (r, saved)
    | _ => (r, saveError saved (UnmarshalTypeError (kind_name v) "follows_best_practices"))
    end
  else if field_is "suggestions" key then
    match v with
    | JString s => ({| FollowsBestPractices := FollowsBestPractices r; Suggestions := s |}, saved)
    | JNull => (r, saved)
    | _ => (r, saveError saved (UnmarshalTypeError (kind_name v) "suggestions"))
    end
  else (r, saved).

Definition member_ollamaResponse (st : ollamaResponse * option JsonError)
    (m : string * json) : ollamaResponse * option JsonError :=
  let '(r, saved) := st in
  let '(key, v) := m in
  if field_is "response" key then
    match v with
    | JString s => ({| Response := s |}, saved)
    | JNull => (r, saved)
    | _ => (r, saveError saved (UnmarshalTypeError (kind_name v) "response"))
    end
  else (r, saved).

(** [d.value] on a pointer to a struct holding [zero]: an object is decoded
    member by member, [null] changes nothing, any other value is a type
    error. *)
Definition decode_struct {A : Type}
    (member : A * option JsonError -> string * json -> A * option JsonError)
    (zero : A) (v : json) : JsonError + A :=
  match v with
  | JObject members =>
    match fold_left member members (zero, None) with
    | (_, Some e) => inl e
    | (r, None) => inr r
    end
  | JNull => inr zero
  | _ => inl (UnmarshalTypeError (kind_name v) "")
  end.

(** [json.Unmarshal(data, v)] for [v = &ollamaResponse{}] and for
    [v = &LLMResponse{}]. *)
Definition json_Unmarshal {A : Type}
    (member : A * option JsonError -> string * json -> A * option JsonError)
    (zero : A) (data : string) : JsonError + A :=
  match json_parse data with
  | None => inl (SyntaxError data)
  | Some v => decode_struct member zero v
  end.

Definition Unmarshal_ollamaResponse : string -> JsonError + ollamaResponse :=
  json_Unmarshal member_ollamaResponse {| Response := "" |}.

Definition Unmarshal_LLMResponse : string -> JsonError + LLMResponse :=
  json_Unmarshal member_LLMResponse {| FollowsBestPractices := false; Suggestions := "" |}.

(** ** encoding/json: encoding an [ollamaRequest] *)

Definition hex_digit (n : N) : ascii :=
  (if n <? 10 then ascii_of_N (48 + n) else ascii_of_N (87 + n))%N.

Definition line_separator : string := String "226" (String "128" (String "168" "")).
Definition paragraph_separator : string := String "226" (String "128" (String "169" "")).

(** What [appendString] writes for one piece of the string (with
    [escapeHTML], as [json.Marshal] sets it). *)
Definition quote_piece (p : bool * string) : string :=
  let '(ok, b) := p in
  if negb ok then String bsl "ufffd"
  else
    match b with
    | String c "" =>
      if (c == bsl) || (c == dq) then String bsl (str c)
      else if c == bs then String bsl "b"
      else if c == ff then String bsl "f"
      else if c == nl then String bsl "n"
      else if c == cr then String bsl "r"
      else if c == tab then String bsl "t"
      else if (code c <? 32)%N || (c == "<") || (c == ">") || (c == "&") then
        String bsl "u00" ++ String (hex_digit (code c / 16)) (str (hex_digit (code c mod 16)))
      else b
    | _ =>
      if String.eqb b line_separator then String bsl "u2028"
      else if String.eqb b paragraph_separator then String bsl "u2029"
      else b
    end.

(** [appendString]: a Go string as a JSON string literal. *)
Definition quote_body (s : string) : string :=
  String.concat "" (map quote_piece (runes s)).

Definition appendString (s : string) : string :=
  String dq (quote_body s ++ str dq).

Definition appendBool (b : bool) : string := if b then "true" else "false".

(** [json.Marshal(llmRequest)]: the fields in the order of the struct, under
    their tags.  It cannot fail on this struct. *)
Definition json_Marshal (r : ollamaRequest) : string :=
  "{" ++ appendString "model" ++ ":" ++ appendString (Model r)
  ++ "," ++ appendString "prompt" ++ ":" ++ appendString (Prompt r)
  ++ "," ++ appendString "format" ++ ":" ++ appendString (Format r)
  ++ "," ++ appendString "system" ++ ":" ++ appendString (System r)
  ++ "," ++ appendString "stream" ++ ":" ++ appendBool (Stream r)
  ++ "}".

(** ** The world outside the program *)

(** The text [err.Error()] returns; Go's [(value, error)] results. *)
Definition error : Type := string.

Inductive result (A : Type) : Type :=
| Ok (a : A)
| Err (err : error).
Arguments Ok {A} a.
Arguments Err {A} err.

(** [*http.Request], as far as [queryLLM] sets it. *)
Record Request : Type := {
  Method : string;
  URL : string;
  Header : list (string * string);
  Body : string
}.

(** [*http.Response]: the status, which [queryLLM] does not look at, and
    what [io.ReadAll(res.Body)] returns. *)
Record HttpResponse : Type := {
  StatusCode : Z;
  ReadAll : result string
}.

(** [exec.Cmd], as far as [startOllama] sets it; [Env] is the environment
    of the process with [ExtraEnv] appended. *)
Record Cmd : Type := {
  Path : string;
  Args : list string;
  ExtraEnv : list string
}.

(** What the program does to the world, in order.  [GoRun] is the launch of
    the goroutine that runs a command; what the goroutine does afterwards
    runs beside [main] and is no part of the trace. *)
Inductive Event : Type :=
| GoRun (cmd : Cmd)
| ReadFile (name : string)
| Do (req : Request)
| Stdout (text : string).

Definition Trace : Type := list Event.

(** The answers of the world, each given the events so far: the file
    system, the HTTP server behind [client.Do], and the text of the errors
    of encoding/json, which the model does not spell out. *)
Record World : Type := {
  file_system : Trace -> string -> result string;
  server : Trace -> Request -> result HttpResponse;
  json_Error : JsonError -> string
}.

(** Programs: the world is read, the trace is extended. *)
Definition IO (A : Type) : Type := World -> Trace -> A * Trace.

Definition ret {A : Type} (a : A) : IO A := fun _ t => (a, t).

Definition bind {A B : Type} (m : IO A) (k : A -> IO B) : IO B :=
  fun w t => let '(a, t') := m w t in k a w t'.

Notation "x <- m ;; k" := (bind m (fun x => k))
  (at level 61, m at next level, right associativity).
Notation "m ;; k" := (bind m (fun _ => k))
  (at level 61, right associativity).

Definition emit (e : Event) : IO unit := fun _ t => (tt, (t ++ [e])%list).

(** [fmt.Print] of a finished text, [fmt.Println], and [err.Error()] for an
    error of encoding/json. *)
Definition fmt_Print (text : string) : IO unit := emit (Stdout text).
Definition fmt_Println (text : string) : IO unit := fmt_Print (text ++ str nl).
Definition Error_text (e : JsonError) : IO string := fun w t => (json_Error w e, t).

Definition os_ReadFile (name : string) : IO (result string) :=
  fun w t => (file_system w t name, (t ++ [ReadFile name])%list).

Definition client_Do (req : Request) : IO (result HttpResponse) :=
  fun w t => (server w t req, (t ++ [Do req])%list).

(** ** main.go *)

Definition ollamaPort : Z := 11435.

Fixpoint tabs (n : nat) : string :=
  match n with
  | O => EmptyString
  | S n' => String tab (tabs n')
  end.

(** The raw string literal [queryLLM] passes to [fmt.Sprintf]; it holds no
    verb, so it is the [System] prompt as it stands. *)
Definition system_prompt : string :=
  "You check go files given for best practices following the official style guide. You will reply in json format. Only reply with the json output and nothing more. The json response should have this format:" ++ str nl ++
  tabs 3 ++ "A " ++ str dq ++ "follows_best_practices" ++ str dq ++ " boolean fields and a " ++ str dq ++ "suggestions" ++ str dq ++ " string field. " ++ str nl ++
  tabs 3 ++ "Example:" ++ str nl ++
  tabs 3 ++ "{" ++ str nl ++
  tabs 4 ++ str dq ++ "follows_best_practices" ++ str dq ++ ": false," ++ str nl ++
  tabs 4 ++ str dq ++ "suggestions" ++ str dq ++ ": " ++ str dq ++ "The function name ParseYAMLConfig does not follow the Go best practices as it's repeating the package name bla bla bla..." ++ str dq ++ str nl ++
  tabs 3 ++ "}" ++ str nl ++
  tabs 1 ++ "    Do NOT include any other field in the json response." ++ str nl ++
  tabs 2 ++ "Suggestions need to be as short and concise as possible, there can be no suggestions if the file appears to be following the best practices. But always indicate suggestions if the file does not follow the best practices." ++ str nl ++
  tabs 2 ++ "You are only given files that have been modified in the current commit so you will lack some context, do not criticize the lack of context. Only check for the best practices that you can observe in the file you are checking at the moment." ++ str nl ++
  tabs 2 ++ "Do not criticize whether the logic makes sense only check for go best practices. You will reply with a json response." ++ str nl ++
  tabs 2.

(** [startOllama]: the command the goroutine runs. *)
Definition startOllama : Cmd :=
  {| Path := "ollama";
     Args := ["serve"];
     ExtraEnv := ["OLLAMA_HOST=127.0.0.1:" ++ fmt_d ollamaPort] |}.

(** [http.NewRequest] followed by [req.Header.Add]; on the constant method
    and URL of [queryLLM] the former returns no error. *)
Definition http_NewRequest (method url body : string) : Request :=
  {| Method := method; URL := url; Header := []; Body := body |}.

Definition Header_Add (req : Request) (key value : string) : Request :=
  {| Method := Method req; URL := URL req;
     Header := (Header req ++ [(key, value)])%list; Body := Body req |}.

(** The request [queryLLM] builds for a file. *)
Definition llmRequest (filename content : string) : ollamaRequest :=
  {| Model := "qwen2.5-coder:7b";
     System := system_prompt;
     Prompt := "File to check:" ++ str nl ++ "Filename: " ++ filename ++ str nl
               ++ "Content:" ++ str nl ++ content;
     Format := "json";
     Stream := false |}.

(** The HTTP request [queryLLM] builds from it. *)
Definition request (filename content : string) : Request :=
  let requestBody := json_Marshal (llmRequest filename content) in
  let req := http_NewRequest "POST"
               ("http://127.0.0.1:" ++ fmt_d ollamaPort ++ "/api/generate")
               requestBody in
  Header_Add req "Content-Type" "application/json".

(** [func queryLLM(filename, content string)], returning a pointer to an
    [LLMResponse] and an [error].  The two returns on an error of
    [json.Marshal] and of [http.NewRequest] are left out: the former does
    not fail on this struct, the latter does not on this method and URL. *)
Definition queryLLM (filename content : string) : IO (result LLMResponse) :=
  res <- client_Do (request filename content) ;;
  match res with
  | Err _ => ret (Err "error running ollama command")
  | Ok res =>
    match ReadAll res with
    | Err err => ret (Err ("error reading response body " ++ err))
    | Ok body =>
      match Unmarshal_ollamaResponse body with
      | inl err =>
        e <- Error_text err ;;
        ret (Err ("error unmarshalling response: " ++ e))
      | inr oResp =>
        match Unmarshal_LLMResponse (Response oResp) with
        | inl err =>
          e <- Error_text err ;;
          ret (Err ("error unmarshalling LLM response: " ++ e))
        | inr llmResponse => ret (Ok llmResponse)
        end
      end
    end
  end.

(** The body of [for _, file := range files]; [warn] goes in and out. *)
Definition check_file (file : string) (warn : bool) : IO bool :=
  if negb (strings_HasSuffix file ".go") then ret warn
  else
    r <- os_ReadFile file ;;
    match r with
    | Err err =>
      fmt_Print ("Error reading file " ++ file ++ ": " ++ err ++ str nl) ;;
      ret warn
    | Ok content =>
      if (8000 <? utf8_RuneCountInString content)%nat then
        fmt_Print ("Skipping file " ++ file ++ " as it has more than 8000 characters" ++ str nl) ;;
        ret warn
      else
        q <- queryLLM file content ;;
        match q with
        | Err err =>
          fmt_Print ("Error querying LLM for file " ++ file ++ ": " ++ err ++ str nl) ;;
          ret warn
        | Ok llmResponse =>
          if negb (FollowsBestPractices llmResponse) then
            fmt_Print (str nl ++ "File: " ++ file ++ " does not follow best practices:" ++ str nl) ;;
            fmt_Print ("Suggestions: " ++ Suggestions llmResponse ++ str nl) ;;
            fmt_Print ("--------------------------------------------" ++ str nl) ;;
            ret true
          else ret warn
        end
    end.

Fixpoint range_files (files : list string) (warn : bool) : IO bool :=
  match files with
  | [] => ret warn
  | file :: rest =>
    warn' <- check_file file warn ;;
    range_files rest warn'
  end.

Definition warning_line : string :=
  str nl ++ "Warning: Some files do not follow Golang best practices. Please review the suggestions above.".

Definition all_clear_line : string :=
  "All checked files follow Golang best practices.".

(** What follows the loop: the summary line and [os.Exit(0)]. *)
Definition summary (warn : bool) : IO Z :=
  (if warn then fmt_Println warning_line else fmt_Println all_clear_line) ;;
  ret 0%Z.

(** [func main()], with [files = os.Args[1:]]; the result is the status
    passed to [os.Exit]. *)
Definition main (files : list string) : IO Z :=
  if (List.length files =? 0)%nat then
    fmt_Println "No files provided for the hook." ;;
    ret 0%Z
  else
    emit (GoRun startOllama) ;;
    if (20 <? List.length files)%nat then
      fmt_Println "Skipping as analysing more than 20 files would take too long" ;;
      ret 0%Z
    else
      warn <- range_files files false ;;
      summary warn.

(** ** Runs of the program *)

(** The part of [main] that follows the iteration of a file: the files
    still to come and the summary. *)
Definition rest_of_main (post : list string) (warn : bool) : IO Z :=
  warn' <- range_files post warn ;;
  summary warn'.

(** The state in which the loop reaches the file that follows [pre]: the
    flag [warn] and the events so far. *)
Definition reach (w : World) (pre : list string) : bool * Trace :=
  range_files pre false w [GoRun startOllama].

(** Whether the iteration of [file], started after the events [t], obtains
    a verdict, and the verdict fails. *)
Definition failing_verdict (w : World) (t : Trace) (file : string) : bool :=
  strings_HasSuffix file ".go" &&
  match file_system w t file with
  | Ok content =>
    (utf8_RuneCountInString content <=? 8000)%nat &&
    match fst (queryLLM file content w (t ++ [ReadFile file])%list) with
    | Ok r => negb (FollowsBestPractices r)
    | Err _ => false
    end
  | Err _ => false
  end.

(** Whether some iteration of the loop over [files], started after [t],
    obtains a verdict that fails. *)
Fixpoint any_failing (w : World) (files : list string) (t : Trace) : bool :=
  match files with
  | [] => false
  | file :: rest =>
    failing_verdict w t file || any_failing w rest (snd (check_file file false w t))
  end.

(** What the events of the loop have in common: only files ending in
    ".go" are read, and no line printed inside the loop is one of the two
    summary lines. *)
Definition loop_event (e : Event) : Prop :=
  match e with
  | GoRun _ => False
  | ReadFile name => strings_HasSuffix name ".go" = true
  | Do _ => True
  | Stdout text => text <> warning_line ++ str nl /\ text <> all_clear_line ++ str nl
  end.

(** The iteration of [file], reached with the flag [warn] after the
    events [t], skips the file: it adds the events [evs] and leaves the flag
    as it is, and [main] goes on with the files that follow. *)
Definition skips (w : World) (pre post : list string) (file : string)
    (warn : bool) (t : Trace) (evs : list Event) : Prop :=
  check_file file warn w t = (warn, (t ++ evs)%list)
  /\ ((List.length (pre ++ file :: post)%list <= 20)%nat ->
      reach w pre = (warn, t) ->
      main (pre ++ file :: post)%list w [] = rest_of_main post warn w (t ++ evs)%list).

Definition is_io (e : Event) : bool :=
  match e with
  | ReadFile _ | Do _ => true
  | _ => false
  end.

(** ** Worlds for the scenarios of the specification *)

Definition quoted (s : string) : string := String dq (s ++ str dq).

(** A quoted string inside a JSON string literal: the quotes escaped. *)
Definition escaped (s : string) : string :=
  String bsl (String dq (s ++ String bsl (str dq))).

(** The envelope the server wraps a reply in, the [inner] text already
    escaped. *)
Definition envelope (inner : string) : string :=
  "{" ++ quoted "response" ++ ":" ++ quoted inner ++ "}".

Definition verdict_text (follows : string) (suggestions : string) : string :=
  "{" ++ escaped "follows_best_practices" ++ ":" ++ follows ++ ","
  ++ escaped "suggestions" ++ ":" ++ escaped suggestions ++ "}".

Definition body_pass : string := envelope (verdict_text "true" EmptyString).
Definition body_fail : string := envelope (verdict_text "false" "use gofmt").

(** A file system in which every file holds [content], and a server that
    answers every request with [answer]. *)
Definition mock (content : result string) (answer : result HttpResponse) : World :=
  {| file_system := fun _ _ => content;
     server := fun _ _ => answer;
     json_Error := fun e =>
       match e with
       | SyntaxError _ => "invalid JSON"
       | UnmarshalTypeError value _ => "cannot unmarshal " ++ value
       end |}.

Definition replies (body : string) : result HttpResponse :=
  Ok {| StatusCode := 200; ReadAll := Ok body |}.

(** The line printed for a file that is too long. *)
Definition skipping_line (file : string) : string :=
  "Skipping file " ++ file ++ " as it has more than 8000 characters" ++ str nl.

(** The lines printed for a file that cannot be read and for a file on
    which [queryLLM] returns an error, and the events of an iteration in
    which [queryLLM] returns the error [err]. *)
Definition reading_error_line (file : string) (err : error) : string :=
  "Error reading file " ++ file ++ ": " ++ err ++ str nl.

Definition querying_error_line (file : string) (err : error) : string :=
  "Error querying LLM for file " ++ file ++ ": " ++ err ++ str nl.

Definition query_failed (file content : string) (err : error) : list Event :=
  [ReadFile file; Do (request file content); Stdout (querying_error_line file err)].

(** The three lines of the report on a file that fails. *)
Definition report (file suggestions : string) : list Event :=
  [Stdout (str nl ++ "File: " ++ file ++ " does not follow best practices:" ++ str nl);
   Stdout ("Suggestions: " ++ suggestions ++ str nl);
   Stdout ("--------------------------------------------" ++ str nl)].

(** A member of an object that an [LLMResponse] can take: under the name
    of a field, a value of the type of the field or [null]; under any other
    name, anything. *)
Definition member_fits (m : string * json) : bool :=
  let '(key, v) := m in
  if field_is "follows_best_practices" key then
    match v with
    | JBool _ | JNull => true
    | _ => false
    end
  else if field_is "suggestions" key then
    match v with
    | JString _ | JNull => true
    | _ => false
    end
  else true.

(** Whether a member goes by the name of a field of [LLMResponse]. *)
Definition names_field (m : string * json) : bool :=
  field_is "follows_best_practices" (fst m) || field_is "suggestions" (fst m).

(** [utf8.ValidString]. *)
Definition utf8_ValidString (s : string) : bool := forallb fst (runes s).

(** Bytes outside ASCII. *)
Definition high (c : ascii) : bool := (0x80 <=? code c)%N.

Fixpoint all_high (s : string) : bool :=
  match s with
  | EmptyString => true
  | String c r => high c && all_high r
  end.

(** The pieces [runes] cuts a string into: a malformed byte, an ASCII
    byte, or a well-formed encoding of two to four bytes outside ASCII,
    which decodes the same whatever follows it. *)
Inductive piece : bool * string -> Prop :=
| piece_malformed (c : ascii) : piece (false, str c)
| piece_ascii (c : ascii) : high c = false -> piece (true, str c)
| piece_encoding (c0 c1 : ascii) (r : string) :
    all_high (String c0 (String c1 r)) = true ->
    (forall rest,
       DecodeRuneInString (String c0 (String c1 r) ++ rest)
       = (true, String.length (String c0 (String c1 r)))) ->
    piece (true, String c0 (String c1 r)).

(** U+00E9, a rune of two bytes. *)
Definition e_acute : string := String "195" (String "169" EmptyString).

Fixpoint repeat_string (n : nat) (s : string) : string :=
  match n with
  | O => EmptyString
  | S n' => s ++ repeat_string n' s
  end.

(** ** Observations on traces *)


(** The files read and the requests sent in a trace, in order. *)
Fixpoint reads (t : Trace) : list string :=
  match t with
  | [] => []
  | ReadFile name :: rest => name :: reads rest
  | _ :: rest => reads rest
  end.

Fixpoint requests (t : Trace) : list Request :=
  match t with
  | [] => []
  | Do req :: rest => req :: requests rest
  | _ :: rest => requests rest
  end.

(** The events one iteration of the loop can add for [file] after the
    events [t]: none for a name that does not end in ".go"; else the read,
    then the request when the file was read and is short enough, then any
    lines. *)
Inductive iteration (w : World) (t : Trace) (file : string) : list Event -> Prop :=
| iteration_other :
    strings_HasSuffix file ".go" = false ->
    iteration w t file []
| iteration_unsent (lines : list string) :
    strings_HasSuffix file ".go" = true ->
    iteration w t file (ReadFile file :: map Stdout lines)
| iteration_sent (content : string) (lines : list string) :
    strings_HasSuffix file ".go" = true ->
    file_system w t file = Ok content ->
    (utf8_RuneCountInString content <= 8000)%nat ->
    iteration w t file
      (ReadFile file :: Do (request file content) :: map Stdout lines).

(** ** The answers of a server that encodes with encoding/json *)

(** [json.Marshal] of an [LLMResponse] and of an [ollamaResponse]: the
    fields in the order of the struct, under their tags. *)
Definition encode_LLMResponse (r : LLMResponse) : string :=
  "{" ++ appendString "follows_best_practices" ++ ":"
  ++ appendBool (FollowsBestPractices r)
  ++ "," ++ appendString "suggestions" ++ ":" ++ appendString (Suggestions r)
  ++ "}".

Definition encode_ollamaResponse (r : ollamaResponse) : string :=
  "{" ++ appendString "response" ++ ":" ++ appendString (Response r) ++ "}".

(** * Properties *)

(** ** Strings *)

Section Strings.

Lemma append_nil_r (s : string) : s ++ "" = s.
Proof. induction s as [|c s IH]; simpl; congruence. Qed.

Lemma append_assoc (a b c : string) : (a ++ b) ++ c = a ++ b ++ c.
Proof. induction a as [|x a IH]; simpl; congruence. Qed.

Lemma length_append (a b : string) :
  String.length (a ++ b) = String.length a + String.length b.
Proof. induction a as [|x a IH]; simpl; congruence. Qed.

Lemma drop_append (p s : string) : drop (String.length p) (p ++ s) = s.
Proof. induction p as [|x p IH]; simpl; [destruct s|]; auto. Qed.

Lemma take_append (p s : string) : take (String.length p) (p ++ s) = p.
Proof. induction p as [|x p IH]; simpl; [destruct s|]; congruence. Qed.

Lemma take_drop (n : nat) (s : string) : take n s ++ drop n s = s.
Proof.
  revert s; induction n as [|n IH]; intros [|c s]; simpl; auto.
  now rewrite IH.
Qed.

Lemma length_drop (n : nat) (s : string) :
  String.length (drop n s) = String.length s - n.
Proof.
  revert s; induction n as [|n IH]; intros [|c s]; simpl; auto.
Qed.

(** [strings.HasSuffix] holds exactly of the strings that end in the
    suffix. *)
Lemma strings_HasSuffix_spec (s suffix : string) :
  strings_HasSuffix s suffix = true <-> exists p, s = p ++ suffix.
Proof.
  unfold strings_HasSuffix. split.
  - intros H. apply andb_true_iff in H as [_ H].
    apply String.eqb_eq in H.
    exists (take (String.length s - String.length suffix) s).
    rewrite <- H at 2. symmetry. apply take_drop.
  - intros [p ->]. apply andb_true_iff. split.
    + apply Nat.leb_le. rewrite length_append. lia.
    + rewrite length_append.
      replace (String.length p + String.length suffix - String.length suffix)
        with (String.length p) by lia.
      rewrite drop_append. apply String.eqb_refl.
Qed.

Lemma strings_HasSuffix_false (s suffix : string) :
  (forall p, s <> p ++ suffix) -> strings_HasSuffix s suffix = false.
Proof.
  intros H. destruct (strings_HasSuffix s suffix) eqn:E; auto.
  apply strings_HasSuffix_spec in E as [p ->]. now elim (H p).
Qed.

Lemma concat_cons (x : string) (xs : list string) :
  String.concat "" (x :: xs) = x ++ String.concat "" xs.
Proof.
  destruct xs as [|y ys]; simpl; [now rewrite append_nil_r | reflexivity].
Qed.

End Strings.

(** ** The loop *)

Section Loop.

Variable w : World.

Lemma range_files_app (pre post : list string) (warn : bool) (t : Trace) :
  range_files (pre ++ post)%list warn w t =
  let '(warn1, t1) := range_files pre warn w t in range_files post warn1 w t1.
Proof.
  revert warn t. induction pre as [|f pre IH]; intros warn t; simpl.
  - reflexivity.
  - unfold bind. destruct (check_file f warn w t) as [warn1 t1]. apply IH.
Qed.

(** A run of [main] on 1 to 20 files, cut at one of them. *)
Lemma main_split (pre post : list string) (file : string) (warn : bool) (t : Trace) :
  List.length (pre ++ file :: post)%list <= 20 ->
  reach w pre = (warn, t) ->
  main (pre ++ file :: post)%list w [] =
  let '(warn1, t1) := check_file file warn w t in rest_of_main post warn1 w t1.
Proof.
  intros Hlen Hreach. unfold main.
  destruct (List.length (pre ++ file :: post)%list =? 0)%nat eqn:E0.
  - apply Nat.eqb_eq in E0. rewrite length_app in E0. simpl in E0. lia.
  - destruct (20 <? List.length (pre ++ file :: post)%list)%nat eqn:E20.
    + apply Nat.ltb_lt in E20. lia.
    + unfold bind at 1. simpl emit. unfold emit. simpl app.
      unfold bind at 1. rewrite range_files_app.
      unfold reach in Hreach. rewrite Hreach. simpl range_files.
      unfold bind at 1. destruct (check_file file warn w t) as [warn1 t1].
      unfold rest_of_main, bind. reflexivity.
Qed.

(** The request goes out whatever comes back. *)
Lemma queryLLM_trace (filename content : string) (t : Trace) :
  snd (queryLLM filename content w t) = (t ++ [Do (request filename content)])%list.
Proof.
  unfold queryLLM, bind, client_Do.
  destruct (server w t (request filename content)) as [res|e]; [|reflexivity].
  destruct (ReadAll res) as [body|e]; [|reflexivity].
  destruct (Unmarshal_ollamaResponse body) as [e|oResp]; [reflexivity|].
  destruct (Unmarshal_LLMResponse (Response oResp)); reflexivity.
Qed.


(** What [queryLLM] returns, read off the answer of the server. *)
Lemma queryLLM_result (filename content : string) (t : Trace) :
  fst (queryLLM filename content w t) =
  match server w t (request filename content) with
  | Err _ => Err "error running ollama command"
  | Ok res =>
    match ReadAll res with
    | Err err => Err ("error reading response body " ++ err)
    | Ok body =>
      match Unmarshal_ollamaResponse body with
      | inl e => Err ("error unmarshalling response: " ++ json_Error w e)
      | inr oResp =>
        match Unmarshal_LLMResponse (Response oResp) with
        | inl e => Err ("error unmarshalling LLM response: " ++ json_Error w e)
        | inr llmResponse => Ok llmResponse
        end
      end
    end
  end.
Proof.
  unfold queryLLM, bind, client_Do.
  destruct (server w t (request filename content)) as [res|e]; [|reflexivity].
  destruct (ReadAll res) as [body|e]; [|reflexivity].
  destruct (Unmarshal_ollamaResponse body) as [e|oResp]; [reflexivity|].
  destruct (Unmarshal_LLMResponse (Response oResp)); reflexivity.
Qed.

(** One iteration, branch by branch, with the events it adds. *)
Lemma check_file_unfold (file : string) (warn : bool) (t : Trace) :
  check_file file warn w t =
  if negb (strings_HasSuffix file ".go") then (warn, t)
  else
    match file_system w t file with
    | Err err =>
      (warn, (t ++ [ReadFile file;
                    Stdout ("Error reading file " ++ file ++ ": " ++ err ++ str nl)])%list)
    | Ok content =>
      if (8000 <? utf8_RuneCountInString content)%nat then
        (warn, (t ++ [ReadFile file;
                      Stdout ("Skipping file " ++ file
                              ++ " as it has more than 8000 characters" ++ str nl)])%list)
      else
        match fst (queryLLM file content w (t ++ [ReadFile file])%list) with
        | Err err =>
          (warn, (t ++ [ReadFile file; Do (request file content);
                        Stdout ("Error querying LLM for file " ++ file ++ ": "
                                ++ err ++ str nl)])%list)
        | Ok r =>
          if negb (FollowsBestPractices r) then
            (true, (t ++ [ReadFile file; Do (request file content);
                          Stdout (str nl ++ "File: " ++ file
                                  ++ " does not follow best practices:" ++ str nl);
                          Stdout ("Suggestions: " ++ Suggestions r ++ str nl);
                          Stdout ("--------------------------------------------" ++ str nl)])%list)
          else (warn, (t ++ [ReadFile file; Do (request file content)])%list)
        end
    end.
Proof.
  unfold check_file.
  destruct (negb (strings_HasSuffix file ".go")); [reflexivity|].
  unfold bind at 1. unfold os_ReadFile.
  destruct (file_system w t file) as [content|err].
  - destruct (8000 <? utf8_RuneCountInString content)%nat.
    + unfold bind, fmt_Print, emit, ret. now rewrite <- app_assoc.
    + unfold bind at 1.
      pose proof (queryLLM_trace file content (t ++ [ReadFile file])%list) as Ht.
      destruct (queryLLM file content w (t ++ [ReadFile file])%list) as [q t'].
      simpl in Ht. subst t'. simpl fst.
      destruct q as [r|err].
      * destruct (negb (FollowsBestPractices r)).
        -- unfold bind, fmt_Print, emit, ret. now rewrite <- !app_assoc.
        -- unfold ret. now rewrite <- app_assoc.
      * unfold bind, fmt_Print, emit, ret. now rewrite <- !app_assoc.
  - unfold bind, fmt_Print, emit, ret. now rewrite <- app_assoc.
Qed.

(** An iteration adds events and takes none away. *)
Lemma check_file_extends (file : string) (warn : bool) (t : Trace) :
  exists evs, snd (check_file file warn w t) = (t ++ evs)%list
              /\ Forall loop_event evs.
Proof.
  rewrite check_file_unfold.
  destruct (strings_HasSuffix file ".go") eqn:Ext; cbn [negb].
  2:{ exists []. simpl. now rewrite app_nil_r. }
  assert (Hline : forall s c r, String c r = s ->
            (c == nl) = false -> (c == "A") = false ->
            s <> warning_line ++ str nl /\ s <> all_clear_line ++ str nl).
  { intros s c r <- Hn Ha. split; intros H; injection H as -> _;
      [now rewrite Ascii.eqb_refl in Hn | now rewrite Ascii.eqb_refl in Ha]. }
  destruct (file_system w t file) as [content|err].
  2:{ eexists; split; [reflexivity|].
      repeat constructor; [exact Ext | |]; eapply Hline; reflexivity. }
  destruct (8000 <? utf8_RuneCountInString content)%nat.
  { eexists; split; [reflexivity|].
    repeat constructor; [exact Ext | |]; eapply Hline; reflexivity. }
  destruct (fst (queryLLM file content w (t ++ [ReadFile file])%list)) as [r|err].
  2:{ eexists; split; [reflexivity|].
      repeat constructor; [exact Ext | |]; eapply Hline; reflexivity. }
  destruct (negb (FollowsBestPractices r)).
  2:{ eexists; split; [reflexivity|]. repeat constructor. exact Ext. }
  eexists; split; [reflexivity|].
  repeat constructor; try exact Ext; try (eapply Hline; reflexivity);
    intros H; discriminate H.
Qed.

Lemma range_files_extends (files : list string) (warn : bool) (t : Trace) :
  exists evs, snd (range_files files warn w t) = (t ++ evs)%list
              /\ Forall loop_event evs.
Proof.
  revert warn t. induction files as [|f files IH]; intros warn t; simpl.
  - exists []. split; [now rewrite app_nil_r | constructor].
  - unfold bind. destruct (check_file_extends f warn t) as (e1 & H1 & F1).
    destruct (check_file f warn w t) as [warn1 t1]. simpl in H1. subst t1.
    destruct (IH warn1 (t ++ e1)%list) as (e2 & H2 & F2).
    exists (e1 ++ e2)%list. split; [now rewrite H2, app_assoc|].
    apply Forall_app. now split.
Qed.

(** The flag: an iteration raises it exactly on a failing verdict, and
    nothing lowers it. *)
Lemma check_file_warn (file : string) (warn : bool) (t : Trace) :
  fst (check_file file warn w t) = warn || failing_verdict w t file.
Proof.
  rewrite check_file_unfold. unfold failing_verdict.
  destruct (strings_HasSuffix file ".go"); cbn [negb andb fst];
    [|now rewrite orb_false_r].
  destruct (file_system w t file) as [content|err]; [|now rewrite orb_false_r].
  rewrite Nat.leb_antisym.
  destruct (8000 <? utf8_RuneCountInString content)%nat; cbn [negb andb fst];
    [now rewrite orb_false_r|].
  destruct (fst (queryLLM file content w (t ++ [ReadFile file])%list)) as [r|err];
    [|now rewrite orb_false_r].
  destruct (FollowsBestPractices r); cbn [negb andb fst];
    [now rewrite orb_false_r | now rewrite orb_true_r].
Qed.

Lemma check_file_trace (file : string) (warn : bool) (t : Trace) :
  snd (check_file file warn w t) = snd (check_file file false w t).
Proof.
  rewrite !check_file_unfold.
  destruct (negb (strings_HasSuffix file ".go")); [reflexivity|].
  destruct (file_system w t file) as [content|err]; [|reflexivity].
  destruct (8000 <? utf8_RuneCountInString content)%nat; [reflexivity|].
  destruct (fst (queryLLM file content w (t ++ [ReadFile file])%list)) as [r|err];
    [|reflexivity].
  destruct (negb (FollowsBestPractices r)); reflexivity.
Qed.

Lemma range_files_warn (files : list string) (warn : bool) (t : Trace) :
  fst (range_files files warn w t) = warn || any_failing w files t.
Proof.
  revert warn t. induction files as [|f files IH]; intros warn t; simpl.
  - now rewrite orb_false_r.
  - unfold bind.
    pose proof (check_file_warn f warn t) as Hw.
    pose proof (check_file_trace f warn t) as Ht.
    destruct (check_file f warn w t) as [warn1 t1]. simpl in Hw, Ht.
    rewrite IH, Hw, Ht. now rewrite orb_assoc.
Qed.

(** The end of the run. *)
Lemma rest_of_main_eq (post : list string) (warn : bool) (t : Trace) :
  rest_of_main post warn w t =
  (0%Z, (snd (range_files post warn w t)
         ++ [Stdout ((if fst (range_files post warn w t)
                      then warning_line else all_clear_line) ++ str nl)])%list).
Proof.
  unfold rest_of_main, bind.
  destruct (range_files post warn w t) as [warn1 t1]. simpl.
  unfold summary, bind.
  destruct warn1; reflexivity.
Qed.

Lemma skips_intro (pre post : list string) (file : string) (warn : bool)
    (t : Trace) (evs : list Event) :
  check_file file warn w t = (warn, (t ++ evs)%list) ->
  skips w pre post file warn t evs.
Proof.
  intros Hc. split; [exact Hc|].
  intros Hlen Hreach. rewrite (main_split pre post file warn t Hlen Hreach).
  now rewrite Hc.
Qed.

(** What an iteration has added stays in the trace of the run. *)
Lemma main_after_iteration (pre post : list string) (file : string)
    (warn : bool) (t : Trace) :
  (List.length (pre ++ file :: post)%list <= 20)%nat ->
  reach w pre = (warn, t) ->
  exists later,
    main (pre ++ file :: post)%list w [] =
      (0%Z, (snd (check_file file warn w t) ++ later
             ++ [Stdout ((if fst (check_file file warn w t)
                             || any_failing w post (snd (check_file file warn w t))
                          then warning_line else all_clear_line) ++ str nl)])%list)
    /\ Forall loop_event later.
Proof.
  intros Hlen Hreach. rewrite (main_split pre post file warn t Hlen Hreach).
  destruct (check_file file warn w t) as [warn1 t1]. cbn [fst snd].
  rewrite rest_of_main_eq, range_files_warn.
  destruct (range_files_extends post warn1 t1) as (later & -> & F).
  exists later. split; [|exact F]. now rewrite <- app_assoc.
Qed.

(** The loop reads every file that ends in ".go". *)
Lemma range_files_reads (files : list string) (warn : bool) (t : Trace) (file : string) :
  In file files -> strings_HasSuffix file ".go" = true ->
  In (ReadFile file) (snd (range_files files warn w t)).
Proof.
  revert warn t. induction files as [|f files IH]; intros warn t Hin Ext.
  - destruct Hin.
  - simpl. unfold bind.
    destruct (check_file f warn w t) as [warn1 t1] eqn:Hc.
    destruct Hin as [->|Hin]; [|now apply IH].
    destruct (range_files_extends files warn1 t1) as (later & -> & _).
    apply in_or_app. left.
    assert (Ht1 : exists evs, t1 = (t ++ ReadFile file :: evs)%list).
    { pose proof (check_file_unfold file warn t) as Hu. rewrite Hc, Ext in Hu.
      cbn [negb] in Hu.
      destruct (file_system w t file) as [content|err];
        [|injection Hu as _ ->; eexists; reflexivity].
      destruct (8000 <? utf8_RuneCountInString content)%nat;
        [injection Hu as _ ->; eexists; reflexivity|].
      destruct (fst (queryLLM file content w (t ++ [ReadFile file])%list)) as [r|err];
        [|injection Hu as _ ->; eexists; reflexivity].
      destruct (negb (FollowsBestPractices r));
        injection Hu as _ ->; eexists; reflexivity. }
    destruct Ht1 as [evs ->]. apply in_or_app. right. now left.
Qed.

(** A run of [main] on 1 to 20 files: the launch of the server, the events
    of the loop, the summary line. *)
Lemma main_run (files : list string) :
  (0 < List.length files <= 20)%nat ->
  exists evs,
    main files w [] =
      (0%Z, ([GoRun startOllama] ++ evs
             ++ [Stdout ((if any_failing w files [GoRun startOllama]
                          then warning_line else all_clear_line) ++ str nl)])%list)
    /\ Forall loop_event evs.
Proof.
  intros Hlen. unfold main.
  destruct (List.length files =? 0)%nat eqn:E0.
  { apply Nat.eqb_eq in E0. lia. }
  destruct (20 <? List.length files)%nat eqn:E20.
  { apply Nat.ltb_lt in E20. lia. }
  unfold bind at 1. unfold emit.
  change (exists evs,
    rest_of_main files false w [GoRun startOllama] =
      (0%Z, ([GoRun startOllama] ++ evs
             ++ [Stdout ((if any_failing w files [GoRun startOllama]
                          then warning_line else all_clear_line) ++ str nl)])%list)
    /\ Forall loop_event evs).
  rewrite rest_of_main_eq, range_files_warn.
  destruct (range_files_extends files false [GoRun startOllama]) as (evs & -> & F).
  exists evs. split; [|exact F].
  cbn [orb]. now rewrite <- app_assoc.
Qed.

(** The three shapes of a run. *)
Lemma main_cases (files : list string) :
  main files w [] = (0%Z, [Stdout ("No files provided for the hook." ++ str nl)])
  \/ main files w [] =
       (0%Z, [GoRun startOllama;
              Stdout ("Skipping as analysing more than 20 files would take too long"
                      ++ str nl)])
  \/ (0 < List.length files <= 20)%nat.
Proof.
  unfold main.
  destruct (List.length files =? 0)%nat eqn:E0; [now left|].
  destruct (20 <? List.length files)%nat eqn:E20; [now right; left|].
  right; right. apply Nat.eqb_neq in E0. apply Nat.ltb_ge in E20. lia.
Qed.

End Loop.

(** ** Runes *)

Section Utf8.

Lemma first_range (c : ascii) (sz : nat) (lo hi : N) :
  first c = Some (sz, (lo, hi)) -> (0x80 <= lo)%N /\ (2 <= sz <= 4)%nat.
Proof.
  unfold first.
  repeat match goal with
         | |- context [if ?b then _ else _] => destruct b
         end;
    intros H; try discriminate H; injection H as <- <- <-; split; lia.
Qed.

Lemma in_range_high (lo hi : N) (c : ascii) :
  (0x80 <= lo)%N -> in_range lo hi c = true -> high c = true.
Proof.
  unfold in_range, high. intros Hlo H.
  apply andb_true_iff in H as [H _]. apply N.leb_le in H. apply N.leb_le. lia.
Qed.

Lemma not_low_high (c : ascii) : (code c <? 0x80)%N = false -> high c = true.
Proof.
  unfold high. intros H. apply N.ltb_ge in H. now apply N.leb_le.
Qed.

Lemma low_not_high (c : ascii) : (code c <? 0x80)%N = true -> high c = false.
Proof.
  unfold high. intros H. apply N.ltb_lt in H. apply N.leb_gt. lia.
Qed.

(** The first piece of a string that is not empty. *)
Lemma DecodeRuneInString_piece (s : string) :
  s <> "" ->
  piece (fst (DecodeRuneInString s), take (snd (DecodeRuneInString s)) s)
  /\ (1 <= snd (DecodeRuneInString s) <= String.length s)%nat.
Proof.
  destruct s as [|c0 r0]; [congruence|]. intros _.
  unfold DecodeRuneInString.
  destruct (code c0 <? 0x80)%N eqn:H0.
  { split; [apply piece_ascii; now apply low_not_high | simpl; lia]. }
  destruct (first c0) as [[sz [lo hi]]|] eqn:F.
  2:{ split; [apply piece_malformed | simpl; lia]. }
  destruct (first_range _ _ _ _ F) as [Hlo Hsz].
  destruct r0 as [|c1 r1].
  { split; [apply piece_malformed | simpl; lia]. }
  destruct (in_range lo hi c1) eqn:H1; cbn [negb].
  2:{ split; [apply piece_malformed | simpl; lia]. }
  assert (Hc0 : high c0 = true) by now apply not_low_high.
  assert (Hc1 : high c1 = true) by now apply (in_range_high lo hi).
  destruct (sz <=? 2)%nat eqn:S2.
  { split; [|simpl; lia]. cbn [fst snd take].
    apply piece_encoding.
    - cbn [all_high]. now rewrite Hc0, Hc1.
    - intros rest. cbn [String.append DecodeRuneInString].
      now rewrite H0, F, H1, S2. }
  destruct r1 as [|c2 r2].
  { split; [apply piece_malformed | simpl; lia]. }
  destruct (is_cont c2) eqn:H2; cbn [negb].
  2:{ split; [apply piece_malformed | simpl; lia]. }
  assert (Hc2 : high c2 = true) by (apply (in_range_high 0x80 0xBF); [lia | exact H2]).
  destruct (sz <=? 3)%nat eqn:S3.
  { split; [|simpl; lia]. cbn [fst snd take].
    apply piece_encoding.
    - cbn [all_high]. now rewrite Hc0, Hc1, Hc2.
    - intros rest. cbn [String.append DecodeRuneInString].
      now rewrite H0, F, H1, S2, H2, S3. }
  destruct r2 as [|c3 r3].
  { split; [apply piece_malformed | simpl; lia]. }
  destruct (is_cont c3) eqn:H3.
  2:{ split; [apply piece_malformed | simpl; lia]. }
  assert (Hc3 : high c3 = true) by (apply (in_range_high 0x80 0xBF); [lia | exact H3]).
  split; [|simpl; lia]. cbn [fst snd take].
  apply piece_encoding.
  - cbn [all_high]. now rewrite Hc0, Hc1, Hc2, Hc3.
  - intros rest. cbn [String.append DecodeRuneInString].
    now rewrite H0, F, H1, S2, H2, S3, H3.
Qed.

Lemma runes_loop_fuel (n m : nat) (s : string) :
  String.length s <= n -> String.length s <= m -> runes_loop n s = runes_loop m s.
Proof.
  revert m s. induction n as [|n IH]; intros m s Hn Hm.
  - destruct s; [|simpl in Hn; lia]. destruct m; reflexivity.
  - destruct m as [|m].
    { destruct s; [reflexivity | simpl in Hm; lia]. }
    destruct s as [|c r]; [reflexivity|].
    cbn [runes_loop].
    destruct (DecodeRuneInString_piece (String c r)) as [_ Hsz]; [congruence|].
    destruct (DecodeRuneInString (String c r)) as [ok size]. cbn [snd] in Hsz.
    f_equal. apply IH; rewrite length_drop; cbn [String.length] in *; lia.
Qed.

(** [runes], one piece at a time. *)
Lemma runes_cons (s : string) :
  s <> "" ->
  runes s = (fst (DecodeRuneInString s), take (snd (DecodeRuneInString s)) s)
            :: runes (drop (snd (DecodeRuneInString s)) s).
Proof.
  intros Hs. destruct (DecodeRuneInString_piece s Hs) as [_ Hsz].
  unfold runes. destruct s as [|c r]; [congruence|].
  cbn [String.length runes_loop].
  destruct (DecodeRuneInString (String c r)) as [ok size]. cbn [fst snd] in *.
  f_equal. apply runes_loop_fuel; rewrite length_drop; cbn [String.length] in *; lia.
Qed.

(** Induction along the pieces of a string. *)
Lemma runes_ind (P : string -> Prop) :
  P "" ->
  (forall s, s <> "" -> P (drop (snd (DecodeRuneInString s)) s) -> P s) ->
  forall s, P s.
Proof.
  intros Hnil Hcons s.
  remember (String.length s) as n eqn:Hn.
  revert s Hn. induction n as [n IH] using lt_wf_ind. intros s Hn.
  destruct s as [|c r]; [exact Hnil|].
  apply Hcons; [congruence|].
  destruct (DecodeRuneInString_piece (String c r)) as [_ Hsz]; [congruence|].
  eapply IH; [|reflexivity]. rewrite length_drop. subst n. lia.
Qed.

(** The pieces make up the string: the loop of [runes] runs to its end. *)
Lemma runes_concat (s : string) : String.concat "" (map snd (runes s)) = s.
Proof.
  induction s as [|s Hs IH] using runes_ind; [reflexivity|].
  rewrite (runes_cons s Hs). cbn [map snd].
  rewrite concat_cons, IH. apply take_drop.
Qed.

End Utf8.

(** ** Quoting and unquoting *)

Section Quote.

Lemma quote_body_cons (s : string) :
  s <> "" ->
  quote_body s =
  quote_piece (fst (DecodeRuneInString s), take (snd (DecodeRuneInString s)) s)
  ++ quote_body (drop (snd (DecodeRuneInString s)) s).
Proof.
  intros Hs. unfold quote_body. rewrite (runes_cons s Hs).
  cbn [map]. apply concat_cons.
Qed.

Lemma coerce_utf8_cons (s : string) :
  s <> "" ->
  coerce_utf8 s =
  (if fst (DecodeRuneInString s) then take (snd (DecodeRuneInString s)) s
   else replacement)
  ++ coerce_utf8 (drop (snd (DecodeRuneInString s)) s).
Proof.
  intros Hs. unfold coerce_utf8. rewrite (runes_cons s Hs).
  cbn [map fst snd]. apply concat_cons.
Qed.

Lemma coerce_utf8_low (c : ascii) (rest : string) :
  high c = false -> coerce_utf8 (String c rest) = String c (coerce_utf8 rest).
Proof.
  intros H. rewrite coerce_utf8_cons by congruence.
  unfold DecodeRuneInString.
  assert (H0 : (code c <? 0x80)%N = true).
  { unfold high in H. apply N.leb_gt in H. now apply N.ltb_lt. }
  rewrite H0. reflexivity.
Qed.

Lemma coerce_utf8_encoding (b rest : string) :
  b <> "" ->
  (forall rest, DecodeRuneInString (b ++ rest) = (true, String.length b)) ->
  coerce_utf8 (b ++ rest) = b ++ coerce_utf8 rest.
Proof.
  intros Hb H. rewrite coerce_utf8_cons.
  - rewrite H. cbn [fst snd]. now rewrite take_append, drop_append.
  - destruct b; [congruence | discriminate].
Qed.

Lemma scan_app (s : scanner) (a b : string) :
  scan s (a ++ b) = scan (scan s a) b.
Proof.
  revert s. induction a as [|c a IH]; intros s; simpl; [reflexivity | apply IH].
Qed.

Lemma high_plain (c : ascii) :
  high c = true ->
  (c == dq) = false /\ (c == bsl) = false /\ (code c <? 32)%N = false.
Proof.
  intros H. unfold high in H. apply N.leb_le in H. repeat split.
  - destruct (c == dq) eqn:E; [|reflexivity].
    apply Ascii.eqb_eq in E. subst c. vm_compute in H. now elim H.
  - destruct (c == bsl) eqn:E; [|reflexivity].
    apply Ascii.eqb_eq in E. subst c. vm_compute in H. now elim H.
  - apply N.ltb_ge. lia.
Qed.

Lemma scan_all_high (b raw : string) (stack : list frame) :
  all_high b = true ->
  scan (stateInString raw, stack) b = (stateInString (raw ++ b), stack).
Proof.
  revert raw. induction b as [|c b IH]; intros raw H.
  - simpl. now rewrite append_nil_r.
  - cbn [all_high] in H. apply andb_true_iff in H as [Hc Hb].
    destruct (high_plain c Hc) as (E1 & E2 & E3).
    cbn [scan scan_step]. rewrite E1, E2, E3.
    rewrite IH by exact Hb. unfold snoc, str. now rewrite append_assoc.
Qed.

Lemma unescape_all_high (b rest : string) :
  all_high b = true -> unescape (b ++ rest) = b ++ unescape rest.
Proof.
  induction b as [|c b IH]; intros H; [reflexivity|].
  cbn [all_high] in H. apply andb_true_iff in H as [Hc Hb].
  destruct (high_plain c Hc) as (_ & E2 & _).
  cbn [String.append unescape]. rewrite E2. now rewrite IH.
Qed.

Ltac low_cases c H :=
  destruct c as [[] [] [] [] [] [] [] []]; try discriminate H; clear H.

Lemma scan_quote_ascii (c : ascii) (raw : string) (stack : list frame) :
  high c = false ->
  scan (stateInString raw, stack) (quote_piece (true, str c))
  = (stateInString (raw ++ quote_piece (true, str c)), stack).
Proof.
  intros H. low_cases c H; cbn; unfold snoc, str; now rewrite ?append_assoc.
Qed.

Lemma unescape_quote_ascii (c : ascii) (rest : string) :
  high c = false ->
  unescape (quote_piece (true, str c) ++ rest) = String c (unescape rest).
Proof.
  intros H. low_cases c H; reflexivity.
Qed.

Lemma coerce_quote_ascii (c : ascii) (rest : string) :
  high c = false ->
  coerce_utf8 (quote_piece (true, str c) ++ rest)
  = quote_piece (true, str c) ++ coerce_utf8 rest.
Proof.
  intros H. low_cases c H; cbn [quote_piece negb str];
    cbv - [coerce_utf8 String.append];
    cbn [String.append]; now rewrite !coerce_utf8_low by reflexivity.
Qed.

(** One piece of the string, quoted: the scanner stays inside the string
    literal, the text is well-formed UTF-8, and unquoting gives the piece
    back, a malformed byte as U+FFFD. *)
Lemma scan_quote_piece (p : bool * string) (raw : string) (stack : list frame) :
  piece p ->
  scan (stateInString raw, stack) (quote_piece p)
  = (stateInString (raw ++ quote_piece p), stack).
Proof.
  intros [c|c H|c0 c1 r H _].
  - cbn. unfold snoc, str. now rewrite ?append_assoc.
  - now apply scan_quote_ascii.
  - cbn [quote_piece negb].
    destruct (String.eqb_spec (String c0 (String c1 r)) line_separator) as [E|_].
    { cbn. unfold snoc, str. now rewrite ?append_assoc. }
    destruct (String.eqb_spec (String c0 (String c1 r)) paragraph_separator) as [E|_].
    { cbn. unfold snoc, str. now rewrite ?append_assoc. }
    now apply scan_all_high.
Qed.

Lemma unescape_quote_piece (p : bool * string) (rest : string) :
  piece p ->
  unescape (quote_piece p ++ rest)
  = (if fst p then snd p else replacement) ++ unescape rest.
Proof.
  intros [c|c H|c0 c1 r H _].
  - reflexivity.
  - now apply unescape_quote_ascii.
  - cbn [quote_piece negb fst snd].
    destruct (String.eqb_spec (String c0 (String c1 r)) line_separator) as [E|_].
    { rewrite E. reflexivity. }
    destruct (String.eqb_spec (String c0 (String c1 r)) paragraph_separator) as [E|_].
    { rewrite E. reflexivity. }
    now apply unescape_all_high.
Qed.

Lemma coerce_quote_piece (p : bool * string) (rest : string) :
  piece p ->
  coerce_utf8 (quote_piece p ++ rest) = quote_piece p ++ coerce_utf8 rest.
Proof.
  intros [c|c H|c0 c1 r H Hdec].
  - cbn [quote_piece negb String.append].
    now rewrite !coerce_utf8_low by reflexivity.
  - now apply coerce_quote_ascii.
  - cbn [quote_piece negb].
    destruct (String.eqb_spec (String c0 (String c1 r)) line_separator) as [E|_].
    { cbn [String.append]. now rewrite !coerce_utf8_low by reflexivity. }
    destruct (String.eqb_spec (String c0 (String c1 r)) paragraph_separator) as [E|_].
    { cbn [String.append]. now rewrite !coerce_utf8_low by reflexivity. }
    apply coerce_utf8_encoding; [discriminate | exact Hdec].
Qed.

(** A whole string, quoted. *)
Lemma scan_quote_body (s raw : string) (stack : list frame) :
  scan (stateInString raw, stack) (quote_body s)
  = (stateInString (raw ++ quote_body s), stack).
Proof.
  revert raw. induction s as [|s Hs IH] using runes_ind; intros raw.
  - cbn. now rewrite append_nil_r.
  - rewrite (quote_body_cons s Hs).
    destruct (DecodeRuneInString_piece s Hs) as [Hp _].
    rewrite scan_app, (scan_quote_piece _ _ _ Hp), IH.
    now rewrite append_assoc.
Qed.

Lemma coerce_quote_body (s : string) : coerce_utf8 (quote_body s) = quote_body s.
Proof.
  induction s as [|s Hs IH] using runes_ind; [reflexivity|].
  rewrite (quote_body_cons s Hs).
  destruct (DecodeRuneInString_piece s Hs) as [Hp _].
  now rewrite (coerce_quote_piece _ _ Hp), IH.
Qed.

Lemma unescape_quote_body (s : string) : unescape (quote_body s) = coerce_utf8 s.
Proof.
  induction s as [|s Hs IH] using runes_ind; [reflexivity|].
  rewrite (quote_body_cons s Hs), (coerce_utf8_cons s Hs).
  destruct (DecodeRuneInString_piece s Hs) as [Hp _].
  now rewrite (unescape_quote_piece _ _ Hp), IH.
Qed.

(** Unquoting undoes quoting, up to the replacement of malformed bytes. *)
Lemma unquote_quote_body (s : string) : unquote (quote_body s) = coerce_utf8 s.
Proof.
  unfold unquote. now rewrite coerce_quote_body, unescape_quote_body.
Qed.

Lemma coerce_utf8_valid (s : string) :
  utf8_ValidString s = true -> coerce_utf8 s = s.
Proof.
  induction s as [|s Hs IH] using runes_ind; [reflexivity|].
  unfold utf8_ValidString. rewrite (runes_cons s Hs). cbn [forallb fst].
  intros H. apply andb_true_iff in H as [H1 H2].
  rewrite (coerce_utf8_cons s Hs), H1, IH by exact H2.
  apply take_drop.
Qed.

(** A string literal where a value may begin, and where a key may. *)
Lemma scan_value_string (s rest : string) (stack : list frame) :
  scan (stateBeginValue, stack) (appendString s ++ rest)
  = scan (endString (quote_body s) stack) rest.
Proof.
  unfold appendString. cbn [String.append scan].
  replace (scan_step (stateBeginValue, stack) dq) with (stateInString "", stack)
    by reflexivity.
  rewrite append_assoc, scan_app, scan_quote_body.
  cbn [String.append str scan scan_step]. now rewrite Ascii.eqb_refl.
Qed.

Lemma scan_key_string (s rest : string) (stack : list frame) (st : step) :
  st = stateBeginString \/ st = stateBeginStringOrEmpty ->
  scan (st, stack) (appendString s ++ rest)
  = scan (endString (quote_body s) stack) rest.
Proof.
  intros Hst. unfold appendString. cbn [String.append scan].
  replace (scan_step (st, stack) dq) with (stateInString "", stack)
    by (destruct Hst as [->| ->]; reflexivity).
  rewrite append_assoc, scan_app, scan_quote_body.
  cbn [String.append str scan scan_step]. now rewrite Ascii.eqb_refl.
Qed.

(** A member with a string for its value. *)
Lemma scan_member_string (key value rest : string) (done : list (string * json))
    (stack : list frame) (st : step) :
  st = stateBeginString \/ st = stateBeginStringOrEmpty ->
  scan (st, InObjectKey done :: stack)
    (appendString key ++ String ":" (appendString value ++ rest))
  = scan (stateEndValue,
          InObjectNext ((coerce_utf8 key, JString (coerce_utf8 value)) :: done) :: stack)
      rest.
Proof.
  intros Hst. rewrite (scan_key_string _ _ _ _ Hst).
  cbn [endString String.append scan].
  replace (scan_step (stateEndValue, InObjectColon done (unquote (quote_body key)) :: stack) ":")
    with (stateBeginValue, InObjectValue done (unquote (quote_body key)) :: stack)
    by reflexivity.
  rewrite scan_value_string. cbn [endString endValue].
  now rewrite !unquote_quote_body.
Qed.

(** The body [json.Marshal] writes for an [ollamaRequest] is a JSON object
    with the five fields of the struct. *)
Lemma json_parse_Marshal (r : ollamaRequest) :
  json_parse (json_Marshal r)
  = Some (JObject [("model", JString (coerce_utf8 (Model r)));
                   ("prompt", JString (coerce_utf8 (Prompt r)));
                   ("format", JString (coerce_utf8 (Format r)));
                   ("system", JString (coerce_utf8 (System r)));
                   ("stream", JBool (Stream r))]).
Proof.
  unfold json_parse, json_Marshal.
  cbn [String.append scan].
  replace (scan_step (stateBeginValue, []) "{")
    with (stateBeginStringOrEmpty, [InObjectKey []]) by reflexivity.
  rewrite scan_member_string by now right.
  cbn [String.append scan].
  replace (scan_step (stateEndValue, [InObjectNext [(coerce_utf8 "model", JString (coerce_utf8 (Model r)))]]) ",")
    with (stateBeginString, [InObjectKey [(coerce_utf8 "model", JString (coerce_utf8 (Model r)))]])
    by reflexivity.
  rewrite scan_member_string by now left.
  cbn [String.append scan].
  match goal with
  | |- context [scan_step (stateEndValue, [InObjectNext ?d]) ","] =>
    replace (scan_step (stateEndValue, [InObjectNext d]) ",")
      with (stateBeginString, [InObjectKey d]) by reflexivity
  end.
  rewrite scan_member_string by now left.
  cbn [String.append scan].
  match goal with
  | |- context [scan_step (stateEndValue, [InObjectNext ?d]) ","] =>
    replace (scan_step (stateEndValue, [InObjectNext d]) ",")
      with (stateBeginString, [InObjectKey d]) by reflexivity
  end.
  rewrite scan_member_string by now left.
  cbn [String.append scan].
  match goal with
  | |- context [scan_step (stateEndValue, [InObjectNext ?d]) ","] =>
    replace (scan_step (stateEndValue, [InObjectNext d]) ",")
      with (stateBeginString, [InObjectKey d]) by reflexivity
  end.
  rewrite (scan_key_string _ _ _ _ (or_introl eq_refl)).
  rewrite unquote_quote_body || cbn [endString].
  rewrite ?unquote_quote_body.
  destruct (Stream r); reflexivity.
Qed.

End Quote.

(** ** Decoding a verdict *)

Section Verdict.

Lemma member_LLMResponse_saved (r : LLMResponse) (e : JsonError) (m : string * json) :
  snd (member_LLMResponse (r, Some e) m) = Some e.
Proof.
  destruct m as [key v]. unfold member_LLMResponse.
  destruct (field_is "follows_best_practices" key);
    [destruct v; reflexivity|].
  destruct (field_is "suggestions" key); [destruct v; reflexivity|reflexivity].
Qed.

Lemma member_LLMResponse_fits (r : LLMResponse) (m : string * json) :
  snd (member_LLMResponse (r, None) m) = None <-> member_fits m = true.
Proof.
  destruct m as [key v]. unfold member_LLMResponse, member_fits.
  destruct (field_is "follows_best_practices" key).
  { destruct v; simpl; split; intros H; try reflexivity; discriminate H. }
  destruct (field_is "suggestions" key).
  { destruct v; simpl; split; intros H; try reflexivity; discriminate H. }
  now split.
Qed.

Lemma member_LLMResponse_other (r : LLMResponse) (saved : option JsonError)
    (m : string * json) :
  names_field m = false -> member_LLMResponse (r, saved) m = (r, saved).
Proof.
  destruct m as [key v]. unfold names_field, member_LLMResponse. simpl.
  intros H. apply orb_false_iff in H as [-> ->]. reflexivity.
Qed.

(** Once an error is saved the decoder reports it. *)
Lemma fold_member_saved (members : list (string * json)) (r : LLMResponse)
    (e : JsonError) :
  snd (fold_left member_LLMResponse members (r, Some e)) = Some e.
Proof.
  revert r. induction members as [|m members IH]; intros r; cbn [fold_left]; [reflexivity|].
  pose proof (member_LLMResponse_saved r e m) as H.
  destruct (member_LLMResponse (r, Some e) m) as [r1 s1]. simpl in H. subst s1.
  apply IH.
Qed.

(** The decoder reports no error exactly when every member fits. *)
Lemma fold_member_fits (members : list (string * json)) (r : LLMResponse) :
  snd (fold_left member_LLMResponse members (r, None)) = None
  <-> forallb member_fits members = true.
Proof.
  revert r. induction members as [|m members IH]; intros r; cbn [fold_left forallb]; [now split|].
  pose proof (member_LLMResponse_fits r m) as H.
  destruct (member_LLMResponse (r, None) m) as [r1 [e|]]; simpl in H.
  - rewrite fold_member_saved. split; [discriminate|].
    intros Hf. apply andb_true_iff in Hf as [Hf _].
    apply H in Hf. discriminate Hf.
  - rewrite IH. rewrite (proj1 H eq_refl). reflexivity.
Qed.

(** Members under other names leave the struct as it is. *)
Lemma fold_member_other (members : list (string * json)) (r : LLMResponse)
    (saved : option JsonError) :
  existsb names_field members = false ->
  fold_left member_LLMResponse members (r, saved) = (r, saved).
Proof.
  induction members as [|m members IH]; cbn [fold_left existsb]; [reflexivity|].
  intros H. apply orb_false_iff in H as [Hm Hrest].
  rewrite member_LLMResponse_other by exact Hm. now apply IH.
Qed.

(** A field no member names keeps its value. *)
Lemma fold_member_keeps (members : list (string * json)) (r : LLMResponse)
    (saved : option JsonError) :
  (existsb (fun m => field_is "follows_best_practices" (fst m)) members = false ->
   FollowsBestPractices (fst (fold_left member_LLMResponse members (r, saved)))
   = FollowsBestPractices r)
  /\ (existsb (fun m => field_is "suggestions" (fst m)) members = false ->
      Suggestions (fst (fold_left member_LLMResponse members (r, saved)))
      = Suggestions r).
Proof.
  revert r saved.
  induction members as [|[key v] members IH]; intros r saved;
    cbn [fold_left existsb fst]; [now split|].
  unfold member_LLMResponse at 2 4.
  destruct (field_is "follows_best_practices" key) eqn:E1.
  - split; [discriminate|]. intros H. cbn [orb] in H.
    apply orb_false_iff in H as [_ H].
    destruct v; (etransitivity; [apply IH; exact H | reflexivity]).
  - destruct (field_is "suggestions" key) eqn:E2.
    + split; [|discriminate]. intros H. cbn [orb] in H.
      destruct v; (etransitivity; [apply IH; exact H | reflexivity]).
    + cbn [orb]. apply IH.
Qed.

(** The inner texts [queryLLM] takes for a verdict. *)
Lemma Unmarshal_LLMResponse_accepts (inner : string) (v : json) :
  json_parse inner = Some v ->
  ((exists r, Unmarshal_LLMResponse inner = inr r)
   <-> v = JNull
       \/ exists members, v = JObject members /\ forallb member_fits members = true).
Proof.
  intros Hparse. unfold Unmarshal_LLMResponse, json_Unmarshal. rewrite Hparse.
  destruct v as [|b|lit|s|elems|members]; simpl.
  - split; [now left | intros _; eexists; reflexivity].
  - split; [intros [r H]; discriminate H | intros [H|(ms & H & _)]; discriminate H].
  - split; [intros [r H]; discriminate H | intros [H|(ms & H & _)]; discriminate H].
  - split; [intros [r H]; discriminate H | intros [H|(ms & H & _)]; discriminate H].
  - split; [intros [r H]; discriminate H | intros [H|(ms & H & _)]; discriminate H].
  - pose proof (fold_member_fits members
                  {| FollowsBestPractices := false; Suggestions := "" |}) as Hf.
    destruct (fold_left member_LLMResponse members
                ({| FollowsBestPractices := false; Suggestions := "" |}, None))
      as [r [e|]]; simpl in Hf.
    + split; [intros [r' H]; discriminate H|].
      intros [H|(ms & H & Hfit)]; [discriminate H|].
      injection H as <-. apply Hf in Hfit. discriminate Hfit.
    + split; [|intros _; eexists; reflexivity].
      intros _. right. exists members. split; [reflexivity|].
      now apply Hf.
Qed.

End Verdict.

(** ** The claims *)

Ltac ends_in_go H :=
  match type of H with
  | exists p, ?file = p ++ ?suffix =>
    apply (proj2 (strings_HasSuffix_spec file suffix)) in H
  end.

(** C1: when the loop, in a run over at most 20 files, obtains for a file
    a verdict with [follows_best_practices] false, it prints the report on
    that file, with the name of the file and the suggestions of the
    verdict, right after the request; and the last line the run prints,
    after the events of the remaining files, is the warning line. *)
Theorem C1_failing_verdict_reported (w : World) (pre post : list string)
    (file content : string) (r : LLMResponse) (warn : bool) (t : Trace) :
  (List.length (pre ++ file :: post)%list <= 20)%nat ->
  reach w pre = (warn, t) ->
  (exists p, file = p ++ ".go") ->
  file_system w t file = Ok content ->
  (utf8_RuneCountInString content <= 8000)%nat ->
  fst (queryLLM file content w (t ++ [ReadFile file])%list) = Ok r ->
  FollowsBestPractices r = false ->
  exists later,
    main (pre ++ file :: post)%list w [] =
      (0%Z, (t ++ [ReadFile file; Do (request file content)]
             ++ report file (Suggestions r)
             ++ later
             ++ [Stdout (warning_line ++ str nl)])%list)
    /\ Forall loop_event later.
Proof.
  intros Hlen Hreach Ext Hread Hshort Hq Hfail. ends_in_go Ext.
  destruct (main_after_iteration w pre post file warn t Hlen Hreach)
    as (later & Hmain & F).
  exists later. split; [|exact F].
  rewrite Hmain, check_file_unfold, Ext, Hread, Hq, Hfail. cbn [negb].
  apply Nat.ltb_ge in Hshort. rewrite Hshort. cbn [fst snd orb].
  unfold report. now rewrite <- !app_assoc.
Qed.

(** The scenario of the specification: the server answers with a verdict
    that fails and suggests "use gofmt". *)
Lemma C1_witness :
  exists later,
    main ["a.go"; "b.txt"] (mock (Ok "package main") (replies body_fail)) [] =
      (0%Z, ([GoRun startOllama]
             ++ [ReadFile "a.go"; Do (request "a.go" "package main")]
             ++ report "a.go" "use gofmt"
             ++ later
             ++ [Stdout (warning_line ++ str nl)])%list)
    /\ Forall loop_event later.
Proof.
  apply (C1_failing_verdict_reported
           (mock (Ok "package main") (replies body_fail))
           [] ["b.txt"] "a.go" "package main"
           {| FollowsBestPractices := false; Suggestions := "use gofmt" |}
           false [GoRun startOllama]).
  - simpl. lia.
  - reflexivity.
  - exists "a". reflexivity.
  - reflexivity.
  - apply Nat.leb_le. reflexivity.
  - vm_compute. reflexivity.
  - reflexivity.
Defined.

(** C2: when more than 20 files are given, the program starts the server
    goroutine, prints that it skips the analysis and exits with status 0;
    it reads no file and sends no request. *)
Theorem C2_more_than_20_files (w : World) (files : list string) :
  (20 < List.length files)%nat ->
  main files w [] =
    (0%Z, [GoRun startOllama;
           Stdout ("Skipping as analysing more than 20 files would take too long"
                   ++ str nl)])
  /\ (forall e, In e (snd (main files w [])) -> is_io e = false).
Proof.
  intros Hlen.
  assert (Hmain : main files w [] =
    (0%Z, [GoRun startOllama;
           Stdout ("Skipping as analysing more than 20 files would take too long"
                   ++ str nl)])).
  { unfold main.
    destruct (List.length files =? 0)%nat eqn:E0.
    { apply Nat.eqb_eq in E0. lia. }
    destruct (20 <? List.length files)%nat eqn:E20.
    - reflexivity.
    - apply Nat.ltb_ge in E20. lia. }
  split; [exact Hmain|].
  rewrite Hmain. simpl. intros e [<-|[<-|[]]]; reflexivity.
Qed.

Lemma C2_witness :
  main (repeat "a.go" 21) (mock (Ok "package main") (replies body_fail)) [] =
    (0%Z, [GoRun startOllama;
           Stdout ("Skipping as analysing more than 20 files would take too long"
                   ++ str nl)])
  /\ (forall e,
        In e (snd (main (repeat "a.go" 21)
                     (mock (Ok "package main") (replies body_fail)) [])) ->
        is_io e = false).
Proof.
  apply (C2_more_than_20_files
           (mock (Ok "package main") (replies body_fail)) (repeat "a.go" 21)).
  simpl. lia.
Defined.

(** C3 as it is stated fails on an input file of more than 8000
    characters whose name does not end in ".go": the file is not read and
    no line naming it is printed; the run prints the all-clear line only.
    It fails as well when more than 20 files are given: no file is read
    and no line names one. *)
Lemma C3_counterexample :
  file_system (mock (Ok (repeat_string 8001 "a")) (replies body_pass))
    [GoRun startOllama] "notes.txt" = Ok (repeat_string 8001 "a")
  /\ utf8_RuneCountInString (repeat_string 8001 "a") = 8001
  /\ main ["notes.txt"] (mock (Ok (repeat_string 8001 "a")) (replies body_pass)) [] =
     (0%Z, [GoRun startOllama; Stdout (all_clear_line ++ str nl)])
  /\ ~ In (Stdout (skipping_line "notes.txt"))
         (snd (main ["notes.txt"]
                 (mock (Ok (repeat_string 8001 "a")) (replies body_pass)) []))
  /\ main (repeat "big.go" 21)
       (mock (Ok (repeat_string 8001 "a")) (replies body_pass)) [] =
     (0%Z, [GoRun startOllama;
            Stdout ("Skipping as analysing more than 20 files would take too long"
                    ++ str nl)]).
Proof.
  assert (Hrun : main ["notes.txt"]
                   (mock (Ok (repeat_string 8001 "a")) (replies body_pass)) [] =
                 (0%Z, [GoRun startOllama; Stdout (all_clear_line ++ str nl)]))
    by reflexivity.
  split; [reflexivity|]. split; [now vm_compute|]. split; [exact Hrun|].
  split; [|reflexivity].
  rewrite Hrun. simpl. intros [H|[H|[]]]; discriminate H.
Qed.

(** C3, amended: in a run over at most 20 files, a file whose name ends in
    ".go", that is read, and whose content has more than 8000 characters
    (runes) is skipped: the iteration reads it and prints the line that
    names it, sends no request and leaves the flag as it is, and the loop
    goes on with the next file. *)
Theorem C3_oversized_go_file_skipped (w : World) (pre post : list string)
    (file content : string) (warn : bool) (t : Trace) :
  (exists p, file = p ++ ".go") ->
  file_system w t file = Ok content ->
  (8000 < utf8_RuneCountInString content)%nat ->
  skips w pre post file warn t [ReadFile file; Stdout (skipping_line file)].
Proof.
  intros Ext Hread Hlong. ends_in_go Ext.
  apply skips_intro.
  rewrite check_file_unfold, Ext, Hread. cbn [negb].
  apply Nat.ltb_lt in Hlong. now rewrite Hlong.
Qed.

Lemma C3_witness :
  skips (mock (Ok (repeat_string 8001 "a")) (replies body_fail))
    [] ["b.go"] "big.go" false [GoRun startOllama]
    [ReadFile "big.go"; Stdout (skipping_line "big.go")].
Proof.
  apply (C3_oversized_go_file_skipped
           (mock (Ok (repeat_string 8001 "a")) (replies body_fail))
           [] ["b.go"] "big.go" (repeat_string 8001 "a") false [GoRun startOllama]).
  - exists "big". reflexivity.
  - reflexivity.
  - apply Nat.ltb_lt. vm_compute. reflexivity.
Defined.

(** C4: a file whose path does not end in ".go" is passed over in
    silence: its iteration reads nothing, sends nothing and prints nothing,
    the flag is unchanged and the loop goes on with the next file; and no
    run of the program ever reads a file of that name. *)
Theorem C4_other_extension_skipped (w : World) (pre post : list string)
    (file : string) (warn : bool) (t : Trace) :
  (forall p, file <> p ++ ".go") ->
  check_file file warn w t = (warn, t)
  /\ ((List.length (pre ++ file :: post)%list <= 20)%nat ->
      reach w pre = (warn, t) ->
      main (pre ++ file :: post)%list w [] = rest_of_main post warn w t)
  /\ (forall files, ~ In (ReadFile file) (snd (main files w []))).
Proof.
  intros Hext. apply strings_HasSuffix_false in Hext.
  assert (Hc : check_file file warn w t = (warn, t)).
  { rewrite check_file_unfold, Hext. reflexivity. }
  split; [exact Hc|]. split.
  - intros Hlen Hreach. rewrite (main_split w pre post file warn t Hlen Hreach).
    now rewrite Hc.
  - intros files Hin.
    destruct (main_cases w files) as [H|[H|H]].
    + rewrite H in Hin. simpl in Hin. destruct Hin as [Hin|[]]. discriminate Hin.
    + rewrite H in Hin. simpl in Hin. destruct Hin as [Hin|[Hin|[]]]; discriminate Hin.
    + destruct (main_run w files H) as (evs & Hm & F).
      rewrite Hm in Hin. cbn [snd] in Hin.
      apply in_app_or in Hin as [Hin|Hin].
      { destruct Hin as [Hin|[]]. discriminate Hin. }
      apply in_app_or in Hin as [Hin|Hin].
      * rewrite Forall_forall in F. specialize (F _ Hin). simpl in F. congruence.
      * destruct Hin as [Hin|[]]. discriminate Hin.
Qed.

Lemma C4_witness :
  check_file "README.md" false (mock (Ok "# notes") (replies body_fail))
    [GoRun startOllama] = (false, [GoRun startOllama])
  /\ main ["README.md"; "a.go"] (mock (Ok "# notes") (replies body_fail)) [] =
     rest_of_main ["a.go"] false (mock (Ok "# notes") (replies body_fail))
       [GoRun startOllama].
Proof.
  assert (Hext : forall p, "README.md" <> p ++ ".go").
  { intros p H.
    assert (E : strings_HasSuffix "README.md" ".go" = true)
      by (apply strings_HasSuffix_spec; now exists p).
    discriminate E. }
  destruct (C4_other_extension_skipped (mock (Ok "# notes") (replies body_fail))
              [] ["a.go"] "README.md" false [GoRun startOllama] Hext) as (H1 & H2 & _).
  split; [exact H1|].
  apply H2; [simpl; lia | reflexivity].
Defined.

(** C5: an error on one file is not fatal.  When the read fails, when the
    request fails, when the body of the answer cannot be read, when the
    body is not an envelope [json.Unmarshal] accepts, and when the text in
    the envelope is not a verdict it accepts, the iteration prints a line
    that names the file and the error, records no verdict (the flag stays
    as it is), and the loop goes on with the next file. *)
Theorem C5_per_file_errors_not_fatal (w : World) (pre post : list string)
    (file : string) (warn : bool) (t : Trace) :
  (exists p, file = p ++ ".go") ->
  (forall err,
     file_system w t file = Err err ->
     skips w pre post file warn t
       [ReadFile file; Stdout (reading_error_line file err)])
  /\ (forall content,
        file_system w t file = Ok content ->
        (utf8_RuneCountInString content <= 8000)%nat ->
        (forall err,
           server w (t ++ [ReadFile file])%list (request file content) = Err err ->
           skips w pre post file warn t
             (query_failed file content "error running ollama command"))
        /\ (forall res err,
              server w (t ++ [ReadFile file])%list (request file content) = Ok res ->
              ReadAll res = Err err ->
              skips w pre post file warn t
                (query_failed file content ("error reading response body " ++ err)))
        /\ (forall res body e,
              server w (t ++ [ReadFile file])%list (request file content) = Ok res ->
              ReadAll res = Ok body ->
              Unmarshal_ollamaResponse body = inl e ->
              skips w pre post file warn t
                (query_failed file content
                   ("error unmarshalling response: " ++ json_Error w e)))
        /\ (forall res body oResp e,
              server w (t ++ [ReadFile file])%list (request file content) = Ok res ->
              ReadAll res = Ok body ->
              Unmarshal_ollamaResponse body = inr oResp ->
              Unmarshal_LLMResponse (Response oResp) = inl e ->
              skips w pre post file warn t
                (query_failed file content
                   ("error unmarshalling LLM response: " ++ json_Error w e)))).
Proof.
  intros Ext. ends_in_go Ext. split.
  - intros err Hread. apply skips_intro.
    now rewrite check_file_unfold, Ext, Hread.
  - intros content Hread Hshort.
    assert (Hq : forall msg,
              fst (queryLLM file content w (t ++ [ReadFile file])%list) = Err msg ->
              skips w pre post file warn t (query_failed file content msg)).
    { intros msg Hmsg. apply skips_intro.
      rewrite check_file_unfold, Ext, Hread, Hmsg. cbn [negb].
      apply Nat.ltb_ge in Hshort. now rewrite Hshort. }
    split; [|split; [|split]].
    + intros err Hserver. apply Hq. now rewrite queryLLM_result, Hserver.
    + intros res err Hserver Hbody. apply Hq.
      now rewrite queryLLM_result, Hserver, Hbody.
    + intros res body e Hserver Hbody He. apply Hq.
      now rewrite queryLLM_result, Hserver, Hbody, He.
    + intros res body oResp e Hserver Hbody Ho He. apply Hq.
      now rewrite queryLLM_result, Hserver, Hbody, Ho, He.
Qed.

(** The five kinds of error, each on the first of two files. *)
Lemma C5_witness :
  skips (mock (Err "open a.go: no such file or directory") (replies body_pass))
    [] ["b.go"] "a.go" false [GoRun startOllama]
    [ReadFile "a.go";
     Stdout (reading_error_line "a.go" "open a.go: no such file or directory")]
  /\ skips (mock (Ok "package main") (Err "connection refused"))
       [] ["b.go"] "a.go" false [GoRun startOllama]
       (query_failed "a.go" "package main" "error running ollama command")
  /\ skips (mock (Ok "package main")
              (Ok {| StatusCode := 200; ReadAll := Err "unexpected EOF" |}))
       [] ["b.go"] "a.go" false [GoRun startOllama]
       (query_failed "a.go" "package main"
          "error reading response body unexpected EOF")
  /\ skips (mock (Ok "package main") (replies "404 page not found"))
       [] ["b.go"] "a.go" false [GoRun startOllama]
       (query_failed "a.go" "package main"
          "error unmarshalling response: invalid JSON")
  /\ skips (mock (Ok "package main") (replies (envelope "{")))
       [] ["b.go"] "a.go" false [GoRun startOllama]
       (query_failed "a.go" "package main"
          "error unmarshalling LLM response: invalid JSON").
Proof.
  assert (Ext : exists p, "a.go" = p ++ ".go") by (exists "a"; reflexivity).
  assert (Hshort : (utf8_RuneCountInString "package main" <= 8000)%nat)
    by (apply Nat.leb_le; reflexivity).
  split.
  { exact (proj1 (C5_per_file_errors_not_fatal
             (mock (Err "open a.go: no such file or directory") (replies body_pass))
             [] ["b.go"] "a.go" false [GoRun startOllama] Ext)
             "open a.go: no such file or directory" eq_refl). }
  split.
  { exact (proj1 (proj2 (C5_per_file_errors_not_fatal
             (mock (Ok "package main") (Err "connection refused"))
             [] ["b.go"] "a.go" false [GoRun startOllama] Ext)
             "package main" eq_refl Hshort)
             "connection refused" eq_refl). }
  split.
  { exact (proj1 (proj2 (proj2 (C5_per_file_errors_not_fatal
             (mock (Ok "package main")
                (Ok {| StatusCode := 200; ReadAll := Err "unexpected EOF" |}))
             [] ["b.go"] "a.go" false [GoRun startOllama] Ext)
             "package main" eq_refl Hshort))
             {| StatusCode := 200; ReadAll := Err "unexpected EOF" |}
             "unexpected EOF" eq_refl eq_refl). }
  split.
  { apply (proj1 (proj2 (proj2 (proj2 (C5_per_file_errors_not_fatal
             (mock (Ok "package main") (replies "404 page not found"))
             [] ["b.go"] "a.go" false [GoRun startOllama] Ext)
             "package main" eq_refl Hshort)))
             {| StatusCode := 200; ReadAll := Ok "404 page not found" |}
             "404 page not found" (SyntaxError "404 page not found")
             eq_refl eq_refl).
    vm_compute. reflexivity. }
  apply (proj2 (proj2 (proj2 (proj2 (C5_per_file_errors_not_fatal
           (mock (Ok "package main") (replies (envelope "{")))
           [] ["b.go"] "a.go" false [GoRun startOllama] Ext)
           "package main" eq_refl Hshort)))
           {| StatusCode := 200; ReadAll := Ok (envelope "{") |}
           (envelope "{") {| Response := "{" |} (SyntaxError "{")
           eq_refl eq_refl).
  - vm_compute. reflexivity.
  - vm_compute. reflexivity.
Defined.

(** C6: when the loop, in a run over at most 20 files, obtains for a file
    a verdict with [follows_best_practices] true, the iteration prints
    nothing: it reads the file, sends the request and leaves the flag as it
    is.  And when no iteration of the run obtains a verdict that fails, the
    last line the run prints is the all-clear line, and neither summary
    line is printed before it. *)
Theorem C6_passing_verdict_not_reported (w : World) (pre post : list string)
    (file content : string) (r : LLMResponse) (warn : bool) (t : Trace) :
  (List.length (pre ++ file :: post)%list <= 20)%nat ->
  reach w pre = (warn, t) ->
  (exists p, file = p ++ ".go") ->
  file_system w t file = Ok content ->
  (utf8_RuneCountInString content <= 8000)%nat ->
  fst (queryLLM file content w (t ++ [ReadFile file])%list) = Ok r ->
  FollowsBestPractices r = true ->
  skips w pre post file warn t [ReadFile file; Do (request file content)]
  /\ (any_failing w (pre ++ file :: post)%list [GoRun startOllama] = false ->
      exists evs,
        main (pre ++ file :: post)%list w [] =
          (0%Z, ([GoRun startOllama] ++ evs
                 ++ [Stdout (all_clear_line ++ str nl)])%list)
        /\ ~ In (Stdout (warning_line ++ str nl)) evs
        /\ ~ In (Stdout (all_clear_line ++ str nl)) evs).
Proof.
  intros Hlen Hreach Ext Hread Hshort Hq Hpass. ends_in_go Ext. split.
  - apply skips_intro.
    rewrite check_file_unfold, Ext, Hread, Hq, Hpass. cbn [negb].
    apply Nat.ltb_ge in Hshort. now rewrite Hshort.
  - intros Hnone.
    assert (Hn : (0 < List.length (pre ++ file :: post)%list <= 20)%nat).
    { split; [|exact Hlen]. rewrite length_app. simpl. lia. }
    destruct (main_run w _ Hn) as (evs & Hmain & F).
    rewrite Hnone in Hmain. exists evs. split; [exact Hmain|].
    rewrite Forall_forall in F.
    split; intros Hin; apply F in Hin; simpl in Hin; destruct Hin as [H1 H2];
      [now apply H1 | now apply H2].
Qed.

(** The scenario of the specification: the server answers with a verdict
    that passes. *)
Lemma C6_witness :
  skips (mock (Ok "package main") (replies body_pass)) [] ["b.txt"] "a.go" false
    [GoRun startOllama] [ReadFile "a.go"; Do (request "a.go" "package main")]
  /\ exists evs,
       main ["a.go"; "b.txt"] (mock (Ok "package main") (replies body_pass)) [] =
         (0%Z, ([GoRun startOllama] ++ evs
                ++ [Stdout (all_clear_line ++ str nl)])%list)
       /\ ~ In (Stdout (warning_line ++ str nl)) evs
       /\ ~ In (Stdout (all_clear_line ++ str nl)) evs.
Proof.
  destruct (C6_passing_verdict_not_reported
              (mock (Ok "package main") (replies body_pass))
              [] ["b.txt"] "a.go" "package main"
              {| FollowsBestPractices := true; Suggestions := EmptyString |}
              false [GoRun startOllama]) as [H1 H2].
  - simpl. lia.
  - reflexivity.
  - exists "a". reflexivity.
  - reflexivity.
  - apply Nat.leb_le. reflexivity.
  - vm_compute. reflexivity.
  - reflexivity.
  - split; [exact H1|]. apply H2. vm_compute. reflexivity.
Defined.

(** C7: whatever files are given and whatever the world answers, the
    status [main] passes to [os.Exit] is 0. *)
Theorem C7_exit_status_zero (w : World) (files : list string) (t : Trace) :
  fst (main files w t) = 0%Z.
Proof.
  unfold main.
  destruct (List.length files =? 0)%nat; [reflexivity|].
  destruct (20 <? List.length files)%nat; [reflexivity|].
  unfold bind at 1. unfold emit.
  change (fst (rest_of_main files false w (t ++ [GoRun startOllama])%list) = 0%Z).
  now rewrite rest_of_main_eq.
Qed.

(** C8: for a file that is eligible (at most 20 files are given, its name
    ends in ".go", it is read and has at most 8000 runes) the iteration
    sends one request, right after the read.  The request is a POST to
    http://127.0.0.1:11435/api/generate with the content type
    application/json, and its body is what [json.Marshal] writes for the
    struct with the fixed model, the fixed system prompt, the format
    "json", no streaming, and the prompt that holds the name and the whole
    content of the file.  That body is a JSON object with these five
    fields; its strings are those of the struct with malformed UTF-8
    replaced by U+FFFD, so with well-formed names and contents they are
    the same. *)
Theorem C8_request_for_eligible_file (w : World) (pre post : list string)
    (file content : string) (warn : bool) (t : Trace) :
  (List.length (pre ++ file :: post)%list <= 20)%nat ->
  reach w pre = (warn, t) ->
  (exists p, file = p ++ ".go") ->
  file_system w t file = Ok content ->
  (utf8_RuneCountInString content <= 8000)%nat ->
  (exists later,
     snd (main (pre ++ file :: post)%list w []) =
     (t ++ [ReadFile file; Do (request file content)] ++ later)%list)
  /\ request file content =
     {| Method := "POST";
        URL := "http://127.0.0.1:11435/api/generate";
        Header := [("Content-Type", "application/json")];
        Body := json_Marshal
                  {| Model := "qwen2.5-coder:7b";
                     Prompt := "File to check:" ++ str nl ++ "Filename: " ++ file
                               ++ str nl ++ "Content:" ++ str nl ++ content;
                     Format := "json";
                     System := system_prompt;
                     Stream := false |} |}
  /\ json_parse (Body (request file content)) =
     Some (JObject
             [("model", JString "qwen2.5-coder:7b");
              ("prompt",
               JString (coerce_utf8 ("File to check:" ++ str nl ++ "Filename: " ++ file
                                     ++ str nl ++ "Content:" ++ str nl ++ content)));
              ("format", JString "json");
              ("system", JString system_prompt);
              ("stream", JBool false)])
  /\ (utf8_ValidString ("File to check:" ++ str nl ++ "Filename: " ++ file
                        ++ str nl ++ "Content:" ++ str nl ++ content) = true ->
      coerce_utf8 ("File to check:" ++ str nl ++ "Filename: " ++ file
                   ++ str nl ++ "Content:" ++ str nl ++ content)
      = "File to check:" ++ str nl ++ "Filename: " ++ file
        ++ str nl ++ "Content:" ++ str nl ++ content).
Proof.
  intros Hlen Hreach Ext Hread Hshort. ends_in_go Ext.
  apply Nat.ltb_ge in Hshort.
  split; [|split; [reflexivity|split; [|apply coerce_utf8_valid]]].
  - destruct (main_after_iteration w pre post file warn t Hlen Hreach)
      as (later & Hmain & _).
    rewrite Hmain. cbn [snd].
    rewrite check_file_unfold, Ext, Hread, Hshort. cbn [negb].
    destruct (fst (queryLLM file content w (t ++ [ReadFile file])%list)) as [r|err].
    + destruct (negb (FollowsBestPractices r)); cbn [snd];
        rewrite <- !app_assoc; eexists; reflexivity.
    + cbn [snd]. rewrite <- !app_assoc. eexists. reflexivity.
  - change (Body (request file content))
      with (json_Marshal (llmRequest file content)).
    rewrite json_parse_Marshal.
    assert (Hsys : coerce_utf8 system_prompt = system_prompt)
      by (vm_compute; reflexivity).
    cbn [Model Prompt Format System Stream llmRequest]. rewrite Hsys.
    reflexivity.
Qed.

Lemma C8_witness :
  (exists later,
     snd (main ["a.go"] (mock (Ok "package main") (replies body_pass)) []) =
     ([GoRun startOllama]
      ++ [ReadFile "a.go"; Do (request "a.go" "package main")] ++ later)%list)
  /\ json_parse (Body (request "a.go" "package main")) =
     Some (JObject
             [("model", JString "qwen2.5-coder:7b");
              ("prompt",
               JString ("File to check:" ++ str nl ++ "Filename: a.go"
                        ++ str nl ++ "Content:" ++ str nl ++ "package main"));
              ("format", JString "json");
              ("system", JString system_prompt);
              ("stream", JBool false)]).
Proof.
  destruct (C8_request_for_eligible_file
              (mock (Ok "package main") (replies body_pass))
              [] [] "a.go" "package main" false [GoRun startOllama])
    as (H1 & _ & H3 & _).
  - simpl. lia.
  - reflexivity.
  - exists "a". reflexivity.
  - reflexivity.
  - apply Nat.leb_le. reflexivity.
  - split; [exact H1|]. rewrite H3. vm_compute. reflexivity.
Defined.

(** C9 as it is stated fails: the inner text "[]" is valid JSON and is not
    accepted; [queryLLM] returns an error, the file is skipped, and the run
    ends on the all-clear line.  An object with a member of the wrong type
    under the name of a field is refused too. *)
Lemma C9_counterexample :
  json_parse "[]" = Some (JArray [])
  /\ Unmarshal_LLMResponse "[]" = inl (UnmarshalTypeError "array" EmptyString)
  /\ main ["a.go"] (mock (Ok "package main") (replies (envelope "[]"))) [] =
     (0%Z, ([GoRun startOllama]
            ++ query_failed "a.go" "package main"
                 "error unmarshalling LLM response: cannot unmarshal array"
            ++ [Stdout (all_clear_line ++ str nl)])%list)
  /\ json_parse ("{" ++ quoted "suggestions" ++ ":5}")
     = Some (JObject [("suggestions", JNumber "5")])
  /\ Unmarshal_LLMResponse ("{" ++ quoted "suggestions" ++ ":5}")
     = inl (UnmarshalTypeError "number" "suggestions").
Proof.
  repeat split; vm_compute; reflexivity.
Qed.

(** C9, amended: the schema of the inner verdict is enforced in part.  Of
    the inner texts that are valid JSON, [queryLLM] accepts [null] and the
    objects in which every member under the name of a field (compared
    without regard to case) has the type of the field or is [null];
    members under other names are ignored, and a field that no member
    names keeps its default, false or the empty string.  On [null] and on
    an object with no member under the name of a field, "{}" among them,
    the verdict is the default one, and the file is reported with empty
    suggestions and the run ends on the warning line.
    On any other valid JSON [queryLLM] returns an error and the file is
    skipped with the line that names it. *)
Theorem C9_inner_schema_partly_enforced (w : World) (pre post : list string)
    (file content : string) (warn : bool) (t : Trace)
    (res : HttpResponse) (body : string) (oResp : ollamaResponse) (v : json) :
  (List.length (pre ++ file :: post)%list <= 20)%nat ->
  reach w pre = (warn, t) ->
  (exists p, file = p ++ ".go") ->
  file_system w t file = Ok content ->
  (utf8_RuneCountInString content <= 8000)%nat ->
  server w (t ++ [ReadFile file])%list (request file content) = Ok res ->
  ReadAll res = Ok body ->
  Unmarshal_ollamaResponse body = inr oResp ->
  json_parse (Response oResp) = Some v ->
  ((exists r, Unmarshal_LLMResponse (Response oResp) = inr r)
   <-> v = JNull
       \/ exists members, v = JObject members /\ forallb member_fits members = true)
  /\ (forall members r,
        v = JObject members ->
        Unmarshal_LLMResponse (Response oResp) = inr r ->
        (existsb (fun m => field_is "follows_best_practices" (fst m)) members = false ->
         FollowsBestPractices r = false)
        /\ (existsb (fun m => field_is "suggestions" (fst m)) members = false ->
            Suggestions r = ""))
  /\ (v = JNull
      \/ (exists members, v = JObject members /\ existsb names_field members = false) ->
      Unmarshal_LLMResponse (Response oResp)
        = inr {| FollowsBestPractices := false; Suggestions := "" |}
      /\ exists later,
           main (pre ++ file :: post)%list w [] =
             (0%Z, (t ++ [ReadFile file; Do (request file content)]
                    ++ report file ""
                    ++ later
                    ++ [Stdout (warning_line ++ str nl)])%list)
           /\ Forall loop_event later)
  /\ (~ (v = JNull
         \/ exists members, v = JObject members /\ forallb member_fits members = true) ->
      exists e,
        Unmarshal_LLMResponse (Response oResp) = inl e
        /\ skips w pre post file warn t
             (query_failed file content
                ("error unmarshalling LLM response: " ++ json_Error w e))).
Proof.
  intros Hlen Hreach Ext Hread Hshort Hserver Hbody Houter Hparse.
  ends_in_go Ext. apply Nat.ltb_ge in Hshort.
  pose proof (Unmarshal_LLMResponse_accepts _ _ Hparse) as Hacc.
  split; [exact Hacc|]. split; [|split].
  - intros members r -> Hr.
    unfold Unmarshal_LLMResponse, json_Unmarshal in Hr. rewrite Hparse in Hr.
    unfold decode_struct in Hr.
    pose proof (fold_member_keeps members
                  {| FollowsBestPractices := false; Suggestions := "" |} None) as Hk.
    destruct (fold_left member_LLMResponse members
                ({| FollowsBestPractices := false; Suggestions := "" |}, None))
      as [r' [e|]]; [discriminate Hr|].
    injection Hr as <-. exact Hk.
  - intros Hv.
    assert (Hzero : Unmarshal_LLMResponse (Response oResp)
                    = inr {| FollowsBestPractices := false; Suggestions := "" |}).
    { unfold Unmarshal_LLMResponse, json_Unmarshal. rewrite Hparse.
      destruct Hv as [->|(members & -> & Hnone)]; [reflexivity|].
      unfold decode_struct. now rewrite fold_member_other. }
    split; [exact Hzero|].
    destruct (main_after_iteration w pre post file warn t Hlen Hreach)
      as (later & Hmain & F).
    exists later. split; [|exact F].
    rewrite Hmain, check_file_unfold, Ext, Hread, Hshort.
    rewrite queryLLM_result, Hserver, Hbody, Houter, Hzero.
    cbn [negb FollowsBestPractices Suggestions fst snd orb].
    unfold report. now rewrite <- !app_assoc.
  - intros Hnot.
    destruct (Unmarshal_LLMResponse (Response oResp)) as [e|r] eqn:Hinner.
    2:{ elim Hnot. apply Hacc. now exists r. }
    exists e. split; [reflexivity|].
    apply skips_intro.
    rewrite check_file_unfold, Ext, Hread, Hshort.
    now rewrite queryLLM_result, Hserver, Hbody, Houter, Hinner.
Qed.

(** The server answers with the inner text "{}". *)
Lemma C9_witness :
  Unmarshal_LLMResponse "{}"
    = inr {| FollowsBestPractices := false; Suggestions := "" |}
  /\ exists later,
       main ["a.go"] (mock (Ok "package main") (replies (envelope "{}"))) [] =
         (0%Z, ([GoRun startOllama]
                ++ [ReadFile "a.go"; Do (request "a.go" "package main")]
                ++ report "a.go" ""
                ++ later
                ++ [Stdout (warning_line ++ str nl)])%list)
       /\ Forall loop_event later.
Proof.
  assert (Hparse : json_parse "{}" = Some (JObject [])) by (vm_compute; reflexivity).
  assert (Houter : Unmarshal_ollamaResponse (envelope "{}") = inr {| Response := "{}" |})
    by (vm_compute; reflexivity).
  apply (proj1 (proj2 (proj2 (C9_inner_schema_partly_enforced
           (mock (Ok "package main") (replies (envelope "{}")))
           [] [] "a.go" "package main" false [GoRun startOllama]
           {| StatusCode := 200; ReadAll := Ok (envelope "{}") |}
           (envelope "{}") {| Response := "{}" |} (JObject [])
           ltac:(simpl; lia)
           eq_refl
           (ex_intro _ "a" eq_refl)
           eq_refl
           ltac:(apply Nat.leb_le; reflexivity)
           eq_refl eq_refl Houter Hparse)))).
  right. exists []. split; reflexivity.
Defined.

(** C10: both limits are strict and the size limit counts runes.  A list
    of exactly 20 files is not turned away: the loop runs over it and
    reads each of its ".go" files.  In a run over at most 20 files, a ".go"
    file that is read and has exactly 8000 runes is sent to the server, and
    so is one of more than 8000 bytes but at most 8000 runes. *)
Theorem C10_limits_are_strict (w : World) :
  (forall files,
     List.length files = 20%nat ->
     main files w [] = rest_of_main files false w [GoRun startOllama]
     /\ (forall file, In file files -> (exists p, file = p ++ ".go") ->
         In (ReadFile file) (snd (main files w []))))
  /\ (forall pre post file content warn t,
        (List.length (pre ++ file :: post)%list <= 20)%nat ->
        reach w pre = (warn, t) ->
        (exists p, file = p ++ ".go") ->
        file_system w t file = Ok content ->
        utf8_RuneCountInString content = 8000%nat
        \/ ((8000 < String.length content)%nat
            /\ (utf8_RuneCountInString content <= 8000)%nat) ->
        exists later,
          snd (main (pre ++ file :: post)%list w []) =
          (t ++ [ReadFile file; Do (request file content)] ++ later)%list).
Proof.
  split.
  - intros files Hlen.
    assert (Hmain : main files w [] = rest_of_main files false w [GoRun startOllama]).
    { unfold main. rewrite Hlen. reflexivity. }
    split; [exact Hmain|].
    intros file Hin Ext. ends_in_go Ext.
    rewrite Hmain, rest_of_main_eq. cbn [snd].
    apply in_or_app. left. now apply range_files_reads.
  - intros pre post file content warn t Hlen Hreach Ext Hread Hsize.
    ends_in_go Ext.
    assert (Hshort : (8000 <? utf8_RuneCountInString content)%nat = false).
    { apply Nat.ltb_ge. destruct Hsize as [->|[_ H]]; [apply Nat.le_refl | exact H]. }
    destruct (main_after_iteration w pre post file warn t Hlen Hreach)
      as (later & Hmain & _).
    rewrite Hmain. cbn [snd].
    rewrite check_file_unfold, Ext, Hread, Hshort. cbn [negb].
    destruct (fst (queryLLM file content w (t ++ [ReadFile file])%list)) as [r|err].
    + destruct (negb (FollowsBestPractices r)); cbn [snd];
        rewrite <- !app_assoc; eexists; reflexivity.
    + cbn [snd]. rewrite <- !app_assoc. eexists. reflexivity.
Qed.

(** Twenty files; a file of 8000 letters; a file of 4001 runes in 8002
    bytes. *)
Lemma C10_witness :
  main (repeat "a.go" 20) (mock (Ok "package main") (replies body_pass)) [] =
    rest_of_main (repeat "a.go" 20) false
      (mock (Ok "package main") (replies body_pass)) [GoRun startOllama]
  /\ (exists later,
        snd (main ["a.go"] (mock (Ok (repeat_string 8000 "a")) (replies body_pass)) []) =
        ([GoRun startOllama]
         ++ [ReadFile "a.go"; Do (request "a.go" (repeat_string 8000 "a"))]
         ++ later)%list)
  /\ (exists later,
        snd (main ["a.go"] (mock (Ok (repeat_string 4001 e_acute)) (replies body_pass)) []) =
        ([GoRun startOllama]
         ++ [ReadFile "a.go"; Do (request "a.go" (repeat_string 4001 e_acute))]
         ++ later)%list).
Proof.
  assert (Ext : exists p, "a.go" = p ++ ".go") by (exists "a"; reflexivity).
  split; [|split].
  - apply (C10_limits_are_strict (mock (Ok "package main") (replies body_pass))).
    reflexivity.
  - apply (proj2 (C10_limits_are_strict
                    (mock (Ok (repeat_string 8000 "a")) (replies body_pass)))
             [] [] "a.go" (repeat_string 8000 "a") false [GoRun startOllama]).
    + simpl. lia.
    + reflexivity.
    + exact Ext.
    + reflexivity.
    + left. vm_compute. reflexivity.
  - apply (proj2 (C10_limits_are_strict
                    (mock (Ok (repeat_string 4001 e_acute)) (replies body_pass)))
             [] [] "a.go" (repeat_string 4001 e_acute) false [GoRun startOllama]).
    + simpl. lia.
    + reflexivity.
    + exact Ext.
    + reflexivity.
    + right. split.
      * apply Nat.ltb_lt. vm_compute. reflexivity.
      * apply Nat.leb_le. vm_compute. reflexivity.
Defined.

(** * Further properties *)

(** ** Reads and requests of a run *)

Section Runs.

Variable w : World.

Lemma reads_app (a b : Trace) : reads (a ++ b)%list = (reads a ++ reads b)%list.
Proof.
  induction a as [|e a IH]; [reflexivity|].
  destruct e; simpl; now rewrite IH.
Qed.

Lemma requests_app (a b : Trace) :
  requests (a ++ b)%list = (requests a ++ requests b)%list.
Proof.
  induction a as [|e a IH]; [reflexivity|].
  destruct e; simpl; now rewrite IH.
Qed.

Lemma reads_Stdout (lines : list string) : reads (map Stdout lines) = [].
Proof. induction lines; auto. Qed.

Lemma requests_Stdout (lines : list string) : requests (map Stdout lines) = [].
Proof. induction lines; auto. Qed.

Lemma In_requests (req : Request) (t : Trace) : In (Do req) t <-> In req (requests t).
Proof.
  induction t as [|e t IH]; [now split|].
  destruct e; simpl; rewrite <- IH; split;
    try (intros [H|H]; [discriminate H | exact H]); try (intros H; now right).
  - intros [H|H]; [injection H as ->; now left | now right].
  - intros [->|H]; [now left | now right].
Qed.

(** The events of one iteration. *)
Lemma check_file_iteration (file : string) (warn : bool) (t : Trace) :
  exists evs,
    snd (check_file file warn w t) = (t ++ evs)%list /\ iteration w t file evs.
Proof.
  rewrite check_file_unfold.
  destruct (strings_HasSuffix file ".go") eqn:Ext; cbn [negb].
  2:{ exists []. split; [now rewrite app_nil_r | now constructor]. }
  destruct (file_system w t file) as [content|err] eqn:Hread.
  2:{ eexists. split; [reflexivity|]. now apply (iteration_unsent w t file [_]). }
  destruct (8000 <? utf8_RuneCountInString content)%nat eqn:Hlong.
  { eexists. split; [reflexivity|]. now apply (iteration_unsent w t file [_]). }
  apply Nat.ltb_ge in Hlong.
  destruct (fst (queryLLM file content w (t ++ [ReadFile file])%list)) as [r|err].
  2:{ eexists. split; [reflexivity|].
      now apply (iteration_sent w t file content [_]). }
  destruct (negb (FollowsBestPractices r)).
  - eexists. split; [reflexivity|].
    now apply (iteration_sent w t file content [_; _; _]).
  - eexists. split; [reflexivity|].
    now apply (iteration_sent w t file content []).
Qed.

Lemma range_files_cons (file : string) (files : list string) (warn : bool) (t : Trace) :
  range_files (file :: files) warn w t =
  range_files files (fst (check_file file warn w t)) w (snd (check_file file warn w t)).
Proof.
  simpl. unfold bind. now destruct (check_file file warn w t).
Qed.

(** The loop reads the files that end in ".go", each once, in the order
    of the list. *)
Lemma range_files_reads_exactly (files : list string) (warn : bool) (t : Trace) :
  reads (snd (range_files files warn w t)) =
  (reads t ++ filter (fun f => strings_HasSuffix f ".go") files)%list.
Proof.
  revert warn t. induction files as [|f files IH]; intros warn t.
  - simpl. now rewrite app_nil_r.
  - rewrite range_files_cons, IH.
    destruct (check_file_iteration f warn t) as (evs & -> & Hit).
    rewrite reads_app. cbn [filter].
    destruct Hit as [Ext|lines Ext|content lines Ext _ _]; rewrite Ext; simpl.
    + now rewrite app_nil_r.
    + now rewrite reads_Stdout, <- app_assoc.
    + now rewrite reads_Stdout, <- app_assoc.
Qed.

(** At most one request for each file that ends in ".go". *)
Lemma range_files_requests_count (files : list string) (warn : bool) (t : Trace) :
  (List.length (requests (snd (range_files files warn w t)))
   <= List.length (requests t)
      + List.length (filter (fun f => strings_HasSuffix f ".go") files))%nat.
Proof.
  revert warn t. induction files as [|f files IH]; intros warn t.
  - simpl. lia.
  - rewrite range_files_cons.
    specialize (IH (fst (check_file f warn w t)) (snd (check_file f warn w t))).
    destruct (check_file_iteration f warn t) as (evs & Hevs & Hit).
    rewrite Hevs in IH |- *. rewrite requests_app, length_app in IH. cbn [filter].
    destruct Hit as [Ext|lines Ext|content lines Ext _ _]; rewrite Ext;
      cbn [requests List.length] in IH |- *;
      rewrite ?requests_Stdout in IH; cbn [List.length] in IH; lia.
Qed.

(** Where a request of the loop comes from. *)
Lemma range_files_request_origin (files : list string) (warn : bool) (t : Trace)
    (req : Request) :
  In (Do req) (snd (range_files files warn w t)) ->
  In (Do req) t
  \/ exists t1 t2 file content,
       snd (range_files files warn w t)
       = (t1 ++ ReadFile file :: Do req :: t2)%list
       /\ req = request file content
       /\ In file files
       /\ strings_HasSuffix file ".go" = true
       /\ file_system w t1 file = Ok content
       /\ (utf8_RuneCountInString content <= 8000)%nat.
Proof.
  revert warn t. induction files as [|f files IH]; intros warn t Hin.
  - now left.
  - rewrite range_files_cons in Hin |- *.
    destruct (check_file_iteration f warn t) as (evs & Hevs & Hit).
    rewrite Hevs in Hin |- *.
    destruct (IH _ _ Hin) as [Hold|(t1 & t2 & file & content & Ht & Hr & Hf & Hrest)].
    + apply in_app_or in Hold as [Hold|Hnew]; [now left|].
      right.
      destruct (range_files_extends w files (fst (check_file f warn w t))
                  (t ++ evs)%list) as (later & Hlater & _).
      destruct Hit as [Ext|lines Ext|content lines Ext Hread Hshort].
      * destruct Hnew.
      * destruct Hnew as [H|H]; [discriminate H|].
        apply in_map_iff in H as (x & H & _). discriminate H.
      * destruct Hnew as [H|[H|H]]; [discriminate H | |].
        2:{ apply in_map_iff in H as (x & H & _). discriminate H. }
        injection H as <-.
        exists t, (map Stdout lines ++ later)%list, f, content.
        split; [|now repeat split; try now left].
        rewrite Hlater. now rewrite <- app_assoc.
    + right. exists t1, t2, file, content. split; [exact Ht|].
      split; [exact Hr|]. split; [now right | exact Hrest].
Qed.

End Runs.

(** ** Runes and bytes *)

Section RuneCount.

Lemma DecodeRuneInString_width (s : string) : (snd (DecodeRuneInString s) <= 4)%nat.
Proof.
  unfold DecodeRuneInString.
  repeat match goal with
         | |- context [match ?x with _ => _ end] => destruct x
         end; simpl; lia.
Qed.

Lemma utf8_RuneCountInString_cons (s : string) :
  s <> "" ->
  utf8_RuneCountInString s
  = S (utf8_RuneCountInString (drop (snd (DecodeRuneInString s)) s)).
Proof.
  intros Hs. unfold utf8_RuneCountInString. now rewrite (runes_cons s Hs).
Qed.

(** A rune takes one to four bytes. *)
Lemma utf8_RuneCountInString_bounds (s : string) :
  (utf8_RuneCountInString s <= String.length s <= 4 * utf8_RuneCountInString s)%nat.
Proof.
  induction s as [|s Hs IH] using runes_ind; [vm_compute; lia|].
  rewrite (utf8_RuneCountInString_cons s Hs).
  destruct (DecodeRuneInString_piece s Hs) as [_ Hsz].
  pose proof (DecodeRuneInString_width s) as H4.
  rewrite length_drop in IH. lia.
Qed.

End RuneCount.

(** ** Encoded answers *)

Section Answers.

Lemma coerce_quote_body_app (s rest : string) :
  coerce_utf8 (quote_body s ++ rest) = quote_body s ++ coerce_utf8 rest.
Proof.
  induction s as [|s Hs IH] using runes_ind; [reflexivity|].
  rewrite (quote_body_cons s Hs).
  destruct (DecodeRuneInString_piece s Hs) as [Hp _].
  now rewrite !append_assoc, (coerce_quote_piece _ _ Hp), IH.
Qed.

Lemma coerce_appendString_app (s rest : string) :
  coerce_utf8 (appendString s ++ rest) = appendString s ++ coerce_utf8 rest.
Proof.
  unfold appendString. cbn [String.append].
  rewrite coerce_utf8_low by reflexivity.
  rewrite !append_assoc, coerce_quote_body_app. cbn [String.append str].
  now rewrite coerce_utf8_low by reflexivity.
Qed.

(** What [json.Marshal] writes for an [LLMResponse] is well-formed UTF-8. *)
Lemma coerce_encode_LLMResponse (v : LLMResponse) :
  coerce_utf8 (encode_LLMResponse v) = encode_LLMResponse v.
Proof.
  unfold encode_LLMResponse. cbn [String.append].
  rewrite coerce_utf8_low by reflexivity.
  rewrite coerce_appendString_app. cbn [String.append].
  rewrite coerce_utf8_low by reflexivity.
  assert (Hb : forall rest, coerce_utf8 (appendBool (FollowsBestPractices v) ++ rest)
                            = appendBool (FollowsBestPractices v) ++ coerce_utf8 rest).
  { intros rest. destruct (FollowsBestPractices v); cbn [appendBool String.append];
      now rewrite !coerce_utf8_low by reflexivity. }
  rewrite Hb. cbn [String.append].
  rewrite coerce_utf8_low by reflexivity.
  rewrite coerce_appendString_app. cbn [String.append].
  rewrite coerce_utf8_low by reflexivity.
  rewrite coerce_appendString_app. cbn [String.append].
  now rewrite coerce_utf8_low by reflexivity.
Qed.

(** A member with [true] or [false] for its value. *)
Lemma scan_member_bool (key rest : string) (b : bool) (done : list (string * json))
    (stack : list frame) (st : step) :
  st = stateBeginString \/ st = stateBeginStringOrEmpty ->
  scan (st, InObjectKey done :: stack)
    (appendString key ++ String ":" (appendBool b ++ rest))
  = scan (stateEndValue,
          InObjectNext ((coerce_utf8 key, JBool b) :: done) :: stack)
      rest.
Proof.
  intros Hst. rewrite (scan_key_string _ _ _ _ Hst).
  cbn [endString]. rewrite unquote_quote_body.
  destruct b; reflexivity.
Qed.

Lemma append_str (c : ascii) (rest : string) : String c "" ++ rest = String c rest.
Proof. reflexivity. Qed.

Lemma scan_open_object (rest : string) :
  scan (stateBeginValue, []) (String "{" rest)
  = scan (stateBeginStringOrEmpty, [InObjectKey []]) rest.
Proof. reflexivity. Qed.

Lemma scan_comma (done : list (string * json)) (stack : list frame) (rest : string) :
  scan (stateEndValue, InObjectNext done :: stack) (String "," rest)
  = scan (stateBeginString, InObjectKey done :: stack) rest.
Proof. reflexivity. Qed.

Lemma scan_close_object (done : list (string * json)) :
  scan_step (scan (stateEndValue, [InObjectNext done]) "}") " "
  = (stateEndTop (JObject (rev done)), []).
Proof. reflexivity. Qed.

Lemma json_parse_encode_LLMResponse (v : LLMResponse) :
  json_parse (encode_LLMResponse v)
  = Some (JObject [("follows_best_practices", JBool (FollowsBestPractices v));
                   ("suggestions", JString (coerce_utf8 (Suggestions v)))]).
Proof.
  assert (K1 : coerce_utf8 "follows_best_practices" = "follows_best_practices")
    by (vm_compute; reflexivity).
  assert (K2 : coerce_utf8 "suggestions" = "suggestions")
    by (vm_compute; reflexivity).
  unfold json_parse, encode_LLMResponse.
  rewrite !append_str, scan_open_object.
  rewrite scan_member_bool by now right.
  rewrite scan_comma, scan_member_string by now left.
  rewrite scan_close_object, K1, K2. reflexivity.
Qed.

Lemma json_parse_encode_ollamaResponse (r : ollamaResponse) :
  json_parse (encode_ollamaResponse r)
  = Some (JObject [("response", JString (coerce_utf8 (Response r)))]).
Proof.
  assert (K : coerce_utf8 "response" = "response") by (vm_compute; reflexivity).
  unfold json_parse, encode_ollamaResponse.
  rewrite !append_str, scan_open_object.
  rewrite scan_member_string by now right.
  rewrite scan_close_object, K. reflexivity.
Qed.

(** Decoding undoes encoding, up to the replacement of malformed bytes. *)
Lemma Unmarshal_encode_ollamaResponse (r : ollamaResponse) :
  Unmarshal_ollamaResponse (encode_ollamaResponse r)
  = inr {| Response := coerce_utf8 (Response r) |}.
Proof.
  unfold Unmarshal_ollamaResponse, json_Unmarshal.
  now rewrite json_parse_encode_ollamaResponse.
Qed.

Lemma Unmarshal_encode_LLMResponse (v : LLMResponse) :
  Unmarshal_LLMResponse (encode_LLMResponse v)
  = inr {| FollowsBestPractices := FollowsBestPractices v;
           Suggestions := coerce_utf8 (Suggestions v) |}.
Proof.
  unfold Unmarshal_LLMResponse, json_Unmarshal.
  now rewrite json_parse_encode_LLMResponse.
Qed.

Lemma fold_member_ollamaResponse_other (members : list (string * json))
    (r : ollamaResponse) (saved : option JsonError) :
  existsb (fun m => field_is "response" (fst m)) members = false ->
  fold_left member_ollamaResponse members (r, saved) = (r, saved).
Proof.
  induction members as [|[key v] members IH]; cbn [fold_left existsb fst];
    [reflexivity|].
  intros H. apply orb_false_iff in H as [Hk Hrest].
  unfold member_ollamaResponse at 2. rewrite Hk. now apply IH.
Qed.

End Answers.

(** ** Properties of whole runs *)

Lemma main_nonempty (w : World) (file : string) (files : list string) :
  main (file :: files) w [] =
  if (20 <? List.length (file :: files))%nat
  then (0%Z, [GoRun startOllama;
              Stdout ("Skipping as analysing more than 20 files would take too long"
                      ++ str nl)])
  else rest_of_main (file :: files) false w [GoRun startOllama].
Proof.
  unfold main. cbn [List.length Nat.eqb].
  destruct (20 <? S (List.length files))%nat; reflexivity.
Qed.



(** X2: a run over 1 to 20 files prints one summary line, as its last
    event: the warning line when some iteration obtained a verdict that
    fails, the all-clear line otherwise.  A failure is not forgotten: no
    later file, passing or skipped, turns the warning back. *)
Theorem X2_one_summary_line (w : World) (files : list string) :
  (0 < List.length files <= 20)%nat ->
  exists evs,
    snd (main files w []) =
      ([GoRun startOllama] ++ evs
       ++ [Stdout ((if any_failing w files [GoRun startOllama]
                    then warning_line else all_clear_line) ++ str nl)])%list
    /\ ~ In (Stdout (warning_line ++ str nl)) evs
    /\ ~ In (Stdout (all_clear_line ++ str nl)) evs
    /\ (forall pre post, files = (pre ++ post)%list ->
        any_failing w pre [GoRun startOllama] = true ->
        any_failing w files [GoRun startOllama] = true).
Proof.
  intros Hlen. destruct (main_run w files Hlen) as (evs & Hmain & F).
  exists evs. rewrite Hmain. split; [reflexivity|].
  rewrite Forall_forall in F.
  split; [|split].
  - intros Hin. apply F in Hin. simpl in Hin. now apply (proj1 Hin).
  - intros Hin. apply F in Hin. simpl in Hin. now apply (proj2 Hin).
  - intros pre post -> Hpre.
    pose proof (range_files_warn w (pre ++ post)%list false [GoRun startOllama]) as H.
    rewrite range_files_app in H.
    pose proof (range_files_warn w pre false [GoRun startOllama]) as H1.
    destruct (range_files pre false w [GoRun startOllama]) as [warn1 t1].
    cbn [fst orb] in H1. rewrite Hpre in H1. subst warn1.
    rewrite range_files_warn in H. cbn [orb] in H. now symmetry.
Qed.

Lemma X2_witness :
  exists evs,
    snd (main ["a.go"; "b.go"] (mock (Ok "package main") (replies body_fail)) []) =
      ([GoRun startOllama] ++ evs
       ++ [Stdout ((if any_failing (mock (Ok "package main") (replies body_fail))
                         ["a.go"; "b.go"] [GoRun startOllama]
                    then warning_line else all_clear_line) ++ str nl)])%list
    /\ ~ In (Stdout (warning_line ++ str nl)) evs
    /\ ~ In (Stdout (all_clear_line ++ str nl)) evs
    /\ (forall pre post, ["a.go"; "b.go"] = (pre ++ post)%list ->
        any_failing (mock (Ok "package main") (replies body_fail)) pre
          [GoRun startOllama] = true ->
        any_failing (mock (Ok "package main") (replies body_fail))
          ["a.go"; "b.go"] [GoRun startOllama] = true).
Proof.
  apply (X2_one_summary_line (mock (Ok "package main") (replies body_fail))
           ["a.go"; "b.go"]).
  simpl. lia.
Defined.

(** X3: the files a run reads are the arguments that end in ".go", each
    once and in the order given; a run over more than 20 files reads
    none. *)
Theorem X3_reads_go_files_in_order (w : World) (files : list string) :
  reads (snd (main files w [])) =
  if (20 <? List.length files)%nat then []
  else filter (fun f => strings_HasSuffix f ".go") files.
Proof.
  destruct files as [|file files]; [reflexivity|].
  rewrite main_nonempty.
  destruct (20 <? List.length (file :: files))%nat; [reflexivity|].
  rewrite rest_of_main_eq. cbn [snd].
  rewrite reads_app, range_files_reads_exactly. cbn [reads app].
  apply app_nil_r.
Qed.

(** X4: a run sends at most one request for each argument that ends in
    ".go", and never more than 20 requests. *)
Theorem X4_requests_bounded (w : World) (files : list string) :
  (List.length (requests (snd (main files w [])))
   <= List.length (filter (fun f => strings_HasSuffix f ".go") files))%nat
  /\ (List.length (requests (snd (main files w []))) <= 20)%nat.
Proof.
  destruct files as [|file files]; [simpl; lia|].
  rewrite main_nonempty.
  destruct (20 <? List.length (file :: files))%nat eqn:E; [simpl; lia|].
  apply Nat.ltb_ge in E.
  rewrite rest_of_main_eq. cbn [snd]. rewrite requests_app.
  pose proof (range_files_requests_count w (file :: files) false [GoRun startOllama]) as H.
  pose proof (filter_length_le (fun f => strings_HasSuffix f ".go") (file :: files)) as Hf.
  rewrite length_app. cbn [requests List.length] in H |- *. lia.
Qed.

(** X5: every request of a run comes right after the read of a file: the
    file is one of the arguments, its name ends in ".go", the read
    returned the content the request carries, and the content has at most
    8000 runes.  So no run sends a file with another extension or a file
    that is too long. *)
Theorem X5_request_origin (w : World) (files : list string) (req : Request) :
  In (Do req) (snd (main files w [])) ->
  exists t1 t2 file content,
    snd (main files w []) = (t1 ++ ReadFile file :: Do req :: t2)%list
    /\ req = request file content
    /\ In file files
    /\ strings_HasSuffix file ".go" = true
    /\ file_system w t1 file = Ok content
    /\ (utf8_RuneCountInString content <= 8000)%nat.
Proof.
  destruct files as [|file files].
  { intros [H|[]]. discriminate H. }
  rewrite main_nonempty.
  destruct (20 <? List.length (file :: files))%nat.
  { intros [H|[H|[]]]; discriminate H. }
  rewrite rest_of_main_eq. cbn [snd]. intros Hin.
  apply in_app_or in Hin as [Hin|[H|[]]]; [|discriminate H].
  destruct (range_files_request_origin w _ _ _ _ Hin)
    as [[H|[]]|(t1 & t2 & f & content & Ht & Hrest)]; [discriminate H|].
  exists t1, (t2 ++ [Stdout ((if fst (range_files (file :: files) false w
                                       [GoRun startOllama])
                              then warning_line else all_clear_line) ++ str nl)])%list,
    f, content.
  split; [|exact Hrest].
  rewrite Ht. now rewrite <- app_assoc.
Qed.

Lemma X5_witness :
  exists t1 t2 file content,
    snd (main ["a.go"] (mock (Ok "package main") (replies body_pass)) [])
    = (t1 ++ ReadFile file :: Do (request "a.go" "package main") :: t2)%list
    /\ request "a.go" "package main" = request file content
    /\ In file ["a.go"]
    /\ strings_HasSuffix file ".go" = true
    /\ file_system (mock (Ok "package main") (replies body_pass)) t1 file = Ok content
    /\ (utf8_RuneCountInString content <= 8000)%nat.
Proof.
  apply (X5_request_origin (mock (Ok "package main") (replies body_pass))
           ["a.go"] (request "a.go" "package main")).
  assert (H : snd (main ["a.go"] (mock (Ok "package main") (replies body_pass)) [])
              = [GoRun startOllama; ReadFile "a.go";
                 Do (request "a.go" "package main");
                 Stdout (all_clear_line ++ str nl)])
    by (vm_compute; reflexivity).
  rewrite H. right. right. left. reflexivity.
Defined.

(** X6: what a run does for its first files does not depend on the files
    that follow: the run over a list extended at its end starts with the
    same events, up to the summary line. *)
Theorem X6_earlier_files_unaffected (w : World) (pre post : list string) :
  (0 < List.length pre)%nat ->
  (List.length (pre ++ post)%list <= 20)%nat ->
  exists events line later,
    snd (main pre w []) = (events ++ [Stdout line])%list
    /\ snd (main (pre ++ post)%list w []) = (events ++ later)%list.
Proof.
  intros Hpre Hall.
  destruct pre as [|file pre]; [simpl in Hpre; lia|].
  assert (H1 : (20 <? List.length (file :: pre))%nat = false).
  { apply Nat.ltb_ge. rewrite length_app in Hall. lia. }
  assert (H2 : (20 <? List.length ((file :: pre) ++ post)%list)%nat = false)
    by now apply Nat.ltb_ge.
  rewrite main_nonempty, H1.
  change ((file :: pre) ++ post)%list with (file :: (pre ++ post))%list in H2 |- *.
  rewrite main_nonempty, H2.
  rewrite !rest_of_main_eq. cbn [snd].
  change (file :: (pre ++ post))%list with ((file :: pre) ++ post)%list.
  rewrite range_files_app.
  destruct (range_files (file :: pre) false w [GoRun startOllama]) as [warn1 t1].
  cbn [fst snd].
  destruct (range_files_extends w post warn1 t1) as (evs & -> & _).
  eexists t1, _, _. split; [reflexivity|].
  rewrite <- app_assoc. reflexivity.
Qed.

Lemma X6_witness :
  exists events line later,
    snd (main ["a.go"] (mock (Ok "package main") (replies body_pass)) [])
    = (events ++ [Stdout line])%list
    /\ snd (main (["a.go"] ++ ["b.go"])%list
              (mock (Ok "package main") (replies body_pass)) [])
       = (events ++ later)%list.
Proof.
  apply (X6_earlier_files_unaffected
           (mock (Ok "package main") (replies body_pass)) ["a.go"] ["b.go"]);
    simpl; lia.
Defined.

(** ** Properties of the queries *)

(** X7: the size check in bytes.  A file whose name ends in ".go", read
    with at most 8000 bytes, is never skipped for its size: the request is
    sent.  One of more than 4 * 8000 bytes is skipped whatever it holds, as
    a rune takes at most four bytes. *)
Theorem X7_size_check_in_bytes (w : World) (pre post : list string)
    (file content : string) (warn : bool) (t : Trace) :
  (exists p, file = p ++ ".go") ->
  file_system w t file = Ok content ->
  ((String.length content <= 8000)%nat ->
   exists evs,
     snd (check_file file warn w t)
     = (t ++ [ReadFile file; Do (request file content)] ++ evs)%list)
  /\ ((4 * 8000 < String.length content)%nat ->
      skips w pre post file warn t [ReadFile file; Stdout (skipping_line file)]).
Proof.
  intros Ext Hread. apply (proj2 (strings_HasSuffix_spec file ".go")) in Ext.
  pose proof (utf8_RuneCountInString_bounds content) as Hb.
  split.
  - intros Hlen.
    assert (Hshort : (8000 <? utf8_RuneCountInString content)%nat = false)
      by (apply Nat.ltb_ge; lia).
    rewrite check_file_unfold, Ext, Hread, Hshort. cbn [negb].
    destruct (fst (queryLLM file content w (t ++ [ReadFile file])%list)) as [r|err].
    + destruct (negb (FollowsBestPractices r)); cbn [snd]; eexists; reflexivity.
    + cbn [snd]. eexists. reflexivity.
  - intros Hlen.
    assert (Hlong : (8000 <? utf8_RuneCountInString content)%nat = true)
      by (apply Nat.ltb_lt; lia).
    apply skips_intro.
    now rewrite check_file_unfold, Ext, Hread, Hlong.
Qed.

Lemma X7_witness :
  (exists evs,
     snd (check_file "a.go" false (mock (Ok "package main") (replies body_pass))
            [GoRun startOllama])
     = ([GoRun startOllama]
        ++ [ReadFile "a.go"; Do (request "a.go" "package main")] ++ evs)%list)
  /\ skips (mock (Ok (repeat_string 32001 "a")) (replies body_pass))
       [] [] "a.go" false [GoRun startOllama]
       [ReadFile "a.go"; Stdout (skipping_line "a.go")].
Proof.
  assert (Ext : exists p, "a.go" = p ++ ".go") by (exists "a"; reflexivity).
  split.
  - apply (proj1 (X7_size_check_in_bytes
                    (mock (Ok "package main") (replies body_pass))
                    [] [] "a.go" "package main" false [GoRun startOllama]
                    Ext eq_refl)).
    apply Nat.leb_le. reflexivity.
  - apply (proj2 (X7_size_check_in_bytes
                    (mock (Ok (repeat_string 32001 "a")) (replies body_pass))
                    [] [] "a.go" (repeat_string 32001 "a") false [GoRun startOllama]
                    Ext eq_refl)).
    apply Nat.ltb_lt. vm_compute. reflexivity.
Defined.

(** X8: [queryLLM] sends its request once, whatever comes back, and prints
    nothing; and it never looks at the status of the answer: two answers
    with the same body give the same result. *)
Theorem X8_one_request_status_ignored (w1 w2 : World) (t1 t2 : Trace)
    (filename content : string) (res1 res2 : HttpResponse) :
  server w1 t1 (request filename content) = Ok res1 ->
  server w2 t2 (request filename content) = Ok res2 ->
  ReadAll res1 = ReadAll res2 ->
  (forall e, json_Error w1 e = json_Error w2 e) ->
  fst (queryLLM filename content w1 t1) = fst (queryLLM filename content w2 t2)
  /\ snd (queryLLM filename content w1 t1)
     = (t1 ++ [Do (request filename content)])%list.
Proof.
  intros H1 H2 Hbody Herr. split; [|apply queryLLM_trace].
  rewrite !queryLLM_result, H1, H2, Hbody.
  destruct (ReadAll res2) as [body|err]; [|reflexivity].
  destruct (Unmarshal_ollamaResponse body) as [e|oResp]; [now rewrite Herr|].
  destruct (Unmarshal_LLMResponse (Response oResp)) as [e|r];
    [now rewrite Herr | reflexivity].
Qed.

(** A verdict under the status 200 and under the status 500. *)
Lemma X8_witness :
  fst (queryLLM "a.go" "package main"
         (mock (Ok "package main") (replies body_fail)) [])
  = fst (queryLLM "a.go" "package main"
           (mock (Ok "package main")
              (Ok {| StatusCode := 500; ReadAll := Ok body_fail |})) [])
  /\ snd (queryLLM "a.go" "package main"
            (mock (Ok "package main") (replies body_fail)) [])
     = ([] ++ [Do (request "a.go" "package main")])%list.
Proof.
  apply (X8_one_request_status_ignored
           (mock (Ok "package main") (replies body_fail))
           (mock (Ok "package main")
              (Ok {| StatusCode := 500; ReadAll := Ok body_fail |}))
           [] [] "a.go" "package main"
           {| StatusCode := 200; ReadAll := Ok body_fail |}
           {| StatusCode := 500; ReadAll := Ok body_fail |});
    reflexivity.
Defined.

(** X9: an answer that is a JSON object with no member named [response]
    (or is [null]) passes the first decoding and leaves the inner text
    empty, which is not JSON: [queryLLM] returns the error of the second
    decoding, never a verdict. *)
Theorem X9_answer_without_response (w : World) (t : Trace)
    (filename content : string) (res : HttpResponse) (body : string) (v : json) :
  server w t (request filename content) = Ok res ->
  ReadAll res = Ok body ->
  json_parse body = Some v ->
  v = JNull
  \/ (exists members,
        v = JObject members
        /\ existsb (fun m => field_is "response" (fst m)) members = false) ->
  Unmarshal_ollamaResponse body = inr {| Response := "" |}
  /\ fst (queryLLM filename content w t)
     = Err ("error unmarshalling LLM response: " ++ json_Error w (SyntaxError "")).
Proof.
  intros Hserver Hbody Hparse Hv.
  assert (Houter : Unmarshal_ollamaResponse body = inr {| Response := "" |}).
  { unfold Unmarshal_ollamaResponse, json_Unmarshal. rewrite Hparse.
    destruct Hv as [->|(members & -> & Hnone)]; [reflexivity|].
    unfold decode_struct. now rewrite fold_member_ollamaResponse_other. }
  split; [exact Houter|].
  rewrite queryLLM_result, Hserver, Hbody, Houter. reflexivity.
Qed.

(** The answer of a server that does not know the model. *)
Lemma X9_witness :
  Unmarshal_ollamaResponse
    ("{" ++ quoted "error" ++ ":" ++ quoted "model not found" ++ "}")
  = inr {| Response := "" |}
  /\ fst (queryLLM "a.go" "package main"
            (mock (Ok "package main")
               (replies ("{" ++ quoted "error" ++ ":" ++ quoted "model not found" ++ "}")))
            [])
     = Err "error unmarshalling LLM response: invalid JSON".
Proof.
  apply (X9_answer_without_response
           (mock (Ok "package main")
              (replies ("{" ++ quoted "error" ++ ":" ++ quoted "model not found" ++ "}")))
           [] "a.go" "package main"
           {| StatusCode := 200;
              ReadAll := Ok ("{" ++ quoted "error" ++ ":" ++ quoted "model not found" ++ "}") |}
           ("{" ++ quoted "error" ++ ":" ++ quoted "model not found" ++ "}")
           (JObject [("error", JString "model not found")])).
  - reflexivity.
  - reflexivity.
  - vm_compute. reflexivity.
  - right. eexists. split; [reflexivity|]. vm_compute. reflexivity.
Defined.

(** X10: the two decodings of [queryLLM] undo the two encodings of a
    server that writes its answer with encoding/json: when the body is the
    envelope around the encoded verdict, [queryLLM] returns that verdict,
    with the malformed bytes of the suggestions replaced by U+FFFD, so the
    very verdict when the suggestions are well-formed UTF-8. *)
Theorem X10_verdict_round_trip (w : World) (t : Trace) (filename content : string)
    (res : HttpResponse) (v : LLMResponse) :
  server w t (request filename content) = Ok res ->
  ReadAll res = Ok (encode_ollamaResponse {| Response := encode_LLMResponse v |}) ->
  fst (queryLLM filename content w t)
  = Ok {| FollowsBestPractices := FollowsBestPractices v;
          Suggestions := coerce_utf8 (Suggestions v) |}
  /\ (utf8_ValidString (Suggestions v) = true ->
      fst (queryLLM filename content w t) = Ok v).
Proof.
  intros Hserver Hbody.
  assert (H : fst (queryLLM filename content w t)
              = Ok {| FollowsBestPractices := FollowsBestPractices v;
                      Suggestions := coerce_utf8 (Suggestions v) |}).
  { rewrite queryLLM_result, Hserver, Hbody, Unmarshal_encode_ollamaResponse.
    cbn [Response]. rewrite coerce_encode_LLMResponse.
    now rewrite Unmarshal_encode_LLMResponse. }
  split; [exact H|].
  intros Hvalid. rewrite H, (coerce_utf8_valid _ Hvalid). now destruct v.
Qed.

(** The failing verdict of the specification, as a server encodes it. *)
Lemma X10_witness :
  body_fail
  = encode_ollamaResponse
      {| Response := encode_LLMResponse
                       {| FollowsBestPractices := false; Suggestions := "use gofmt" |} |}
  /\ fst (queryLLM "a.go" "package main"
            (mock (Ok "package main") (replies body_fail)) [])
     = Ok {| FollowsBestPractices := false; Suggestions := "use gofmt" |}.
Proof.
  split; [vm_compute; reflexivity|].
  apply (proj2 (X10_verdict_round_trip
                  (mock (Ok "package main") (replies body_fail)) []
                  "a.go" "package main"
                  {| StatusCode := 200; ReadAll := Ok body_fail |}
                  {| FollowsBestPractices := false; Suggestions := "use gofmt" |}
                  eq_refl ltac:(vm_compute; reflexivity))).
  vm_compute. reflexivity.
Defined.

(** X11: a Go string written as a JSON string literal reads back as the
    string, with every malformed byte replaced by U+FFFD; a string of
    well-formed UTF-8 reads back as it is. *)
Theorem X11_string_round_trip (s : string) :
  json_parse (appendString s) = Some (JString (coerce_utf8 s))
  /\ (utf8_ValidString s = true -> json_parse (appendString s) = Some (JString s)).
Proof.
  assert (H : json_parse (appendString s) = Some (JString (coerce_utf8 s))).
  { unfold json_parse.
    rewrite <- (append_nil_r (appendString s)), scan_value_string.
    cbn [endString endValue scan]. now rewrite unquote_quote_body. }
  split; [exact H|].
  intros Hvalid. now rewrite H, (coerce_utf8_valid _ Hvalid).
Qed.

Lemma X11_witness :
  json_parse (appendString ("say " ++ quoted "hi" ++ str nl))
  = Some (JString ("say " ++ quoted "hi" ++ str nl)).
Proof.
  apply (proj2 (X11_string_round_trip ("say " ++ quoted "hi" ++ str nl))).
  vm_compute. reflexivity.
Defined.
